(** * a2a.server.apps.jsonrpc.jsonrpc_app: the JSON-RPC request pipeline

    A shallow embedding of [JSONRPCApplication] (request classification,
    dispatch, response rendering and error translation) together with the
    properties of its behaviour.

    Python values are modelled by [Value]; exceptions and logging by a small
    error-and-log monad; asynchronous generators by finite streams that end
    normally or by raising.  [Exc] holds the subclasses of Python's
    [Exception], the classes an [except Exception] clause sees; a
    [BaseException] that is not an [Exception] is modelled apart, in
    [Interrupts]. *)

From Stdlib Require Import ZArith List String Bool Lia.
Import ListNotations.
Open Scope string_scope.
Open Scope Z_scope.

Set Implicit Arguments.
Set Warnings "-register-all".

(** ** Python values and pydantic serialisation *)

Module Py.

(** Python data: JSON-like values and pydantic model instances.  A dict
    keeps its insertion order, so it is an association list. *)
Inductive Value : Type :=
| VNone
| VBool (b : bool)
| VInt (z : Z)
| VStr (s : string)
| VList (xs : list Value)
| VDict (kvs : list (string * Value))
| VModel (fields : list (string * Value)).

(** [d.get(k)] on an association list. *)
Fixpoint lookup {A : Type} (k : string) (kvs : list (string * A)) : option A :=
  match kvs with
  | [] => None
  | (k', v) :: rest => if String.eqb k k' then Some v else lookup k rest
  end.

Definition is_none (v : Value) : bool :=
  match v with VNone => true | _ => false end.

(** Python truthiness, as used by [if error_resp.error.data]. *)
Definition truthy (v : Value) : bool :=
  match v with
  | VNone => false
  | VBool b => b
  | VInt z => negb (z =? 0)
  | VStr s => negb (String.eqb s EmptyString)
  | VList xs => match xs with [] => false | _ => true end
  | VDict kvs => match kvs with [] => false | _ => true end
  | VModel _ => true
  end.

(** [model_dump(mode='json', exclude_none=...)]: a model becomes a dict of
    its dumped fields; with [exclude_none] the fields whose value is [None]
    are left out, in nested models too.  Entries of plain dicts and elements
    of lists are kept whatever their value. *)
Fixpoint model_dump (exclude_none : bool) (v : Value) : Value :=
  match v with
  | VList xs => VList (map (model_dump exclude_none) xs)
  | VDict kvs =>
      VDict ((fix entries (l : list (string * Value)) : list (string * Value) :=
                match l with
                | [] => []
                | (k, x) :: rest => (k, model_dump exclude_none x) :: entries rest
                end) kvs)
  | VModel fields =>
      VDict ((fix dump_fields (l : list (string * Value)) : list (string * Value) :=
                match l with
                | [] => []
                | (k, x) :: rest =>
                    if exclude_none && is_none x then dump_fields rest
                    else (k, model_dump exclude_none x) :: dump_fields rest
                end) fields)
  | _ => v
  end.

(** The list of fields [model_dump] keeps for a model. *)
Fixpoint dump_fields (exclude_none : bool) (l : list (string * Value))
  : list (string * Value) :=
  match l with
  | [] => []
  | (k, x) :: rest =>
      if exclude_none && is_none x then dump_fields exclude_none rest
      else (k, model_dump exclude_none x) :: dump_fields exclude_none rest
  end.

Fixpoint dump_entries (exclude_none : bool) (l : list (string * Value))
  : list (string * Value) :=
  match l with
  | [] => []
  | (k, x) :: rest => (k, model_dump exclude_none x) :: dump_entries exclude_none rest
  end.

(** A model instance, somewhere inside [v], has a field whose value is
    [None]. *)
Fixpoint has_none_field (v : Value) : bool :=
  match v with
  | VList xs => existsb has_none_field xs
  | VDict kvs =>
      (fix in_entries (l : list (string * Value)) : bool :=
         match l with
         | [] => false
         | (_, x) :: rest => has_none_field x || in_entries rest
         end) kvs
  | VModel fields =>
      (fix in_fields (l : list (string * Value)) : bool :=
         match l with
         | [] => false
         | (_, x) :: rest => is_none x || has_none_field x || in_fields rest
         end) fields
  | _ => false
  end.

(** The model tree [v] with every [None]-valued field deleted (it stays a
    tree of models: nothing else is changed). *)
Fixpoint drop_none_fields (v : Value) : Value :=
  match v with
  | VList xs => VList (map drop_none_fields xs)
  | VDict kvs =>
      VDict ((fix entries (l : list (string * Value)) : list (string * Value) :=
                match l with
                | [] => []
                | (k, x) :: rest => (k, drop_none_fields x) :: entries rest
                end) kvs)
  | VModel fields =>
      VModel ((fix keep (l : list (string * Value)) : list (string * Value) :=
                 match l with
                 | [] => []
                 | (k, x) :: rest =>
                     if is_none x then keep rest
                     else (k, drop_none_fields x) :: keep rest
                 end) fields)
  | _ => v
  end.

(** Induction over values that reaches into lists, dicts and models. *)
Section ValueInd.

Variable P : Value -> Prop.
Hypothesis HNone : P VNone.
Hypothesis HBool : forall b, P (VBool b).
Hypothesis HInt : forall z, P (VInt z).
Hypothesis HStr : forall s, P (VStr s).
Hypothesis HList : forall xs, Forall P xs -> P (VList xs).
Hypothesis HDict : forall kvs, Forall (fun kv => P (snd kv)) kvs -> P (VDict kvs).
Hypothesis HModel : forall fs, Forall (fun kv => P (snd kv)) fs -> P (VModel fs).

Fixpoint Value_nested_ind (v : Value) : P v :=
  match v with
  | VNone => HNone
  | VBool b => HBool b
  | VInt z => HInt z
  | VStr s => HStr s
  | VList xs =>
      HList ((fix go (l : list Value) : Forall P l :=
                match l with
                | [] => Forall_nil _
                | x :: r => Forall_cons _ (Value_nested_ind x) (go r)
                end) xs)
  | VDict kvs =>
      HDict ((fix go (l : list (string * Value)) : Forall (fun kv => P (snd kv)) l :=
                match l with
                | [] => Forall_nil _
                | kv :: r => Forall_cons _ (Value_nested_ind (snd kv)) (go r)
                end) kvs)
  | VModel fs =>
      HModel ((fix go (l : list (string * Value)) : Forall (fun kv => P (snd kv)) l :=
                 match l with
                 | [] => Forall_nil _
                 | kv :: r => Forall_cons _ (Value_nested_ind (snd kv)) (go r)
                 end) fs)
  end.

End ValueInd.

(** [d[k] = v]: replace the entry in place, or append a new one. *)
Fixpoint dict_set {A : Type} (k : string) (v : A) (kvs : list (string * A))
  : list (string * A) :=
  match kvs with
  | [] => [(k, v)]
  | (k', v') :: rest =>
      if String.eqb k k' then (k, v) :: rest else (k', v') :: dict_set k v rest
  end.

(** [dict(m)] for a mapping [m] given by its items, such as Starlette's
    [Headers]: [m.keys()] lists the key of every item and [m[k]] is the
    value of the first item whose key is [k], so each key gets the value of
    its first item. *)
Definition dict_of_mapping {A : Type} (items : list (string * A))
  : list (string * A) :=
  fold_left (fun d k => match lookup k items with
                        | Some v => dict_set k v d
                        | None => d
                        end)
            (map fst items) [].

(** The text produced by [model_dump_json]: the JSON document that denotes
    the dumped value. *)
Inductive JsonText : Type := json_text (v : Value).

Definition model_dump_json (exclude_none : bool) (v : Value) : JsonText :=
  json_text (model_dump exclude_none v).

End Py.

(** ** Exceptions, logging and asynchronous generators *)

Module Effects.
Import Py.

(** A JSON-RPC request id that is present: [str | int]. *)
Inductive RequestId : Type :=
| IdStr (s : string)
| IdInt (z : Z).

Definition id_value (request_id : option RequestId) : Value :=
  match request_id with
  | None => VNone
  | Some (IdStr s) => VStr s
  | Some (IdInt z) => VInt z
  end.

(** The exception classes the pipeline distinguishes, all of them
    subclasses of [Exception] ([OtherException] stands for any other
    subclass, such as [UnicodeDecodeError] or [RuntimeError]).
    [ValidationError] carries what [json.loads(e.json())] returns; every
    exception carries the text [str(e)] gives.  What is raised outside the
    [Exception] hierarchy is [Interrupts.BaseExc]. *)
Inductive Exc : Type :=
| MethodNotImplementedError (message : string)
| JSONDecodeError (message : string)
| ValidationError (errors : Value) (message : string)
| HTTPException (status_code : Z) (detail : string)
| AttributeError (message : string)
| OtherException (class_name : string) (message : string).

Definition exc_str (e : Exc) : string :=
  match e with
  | MethodNotImplementedError m => m
  | JSONDecodeError m => m
  | ValidationError _ m => m
  | HTTPException _ d => d
  | AttributeError m => m
  | OtherException _ m => m
  end.

(** starlette.status *)
Definition HTTP_413_REQUEST_ENTITY_TOO_LARGE : Z := 413.

(** What a call does: return a value or raise. *)
Inductive Outcome (A : Type) : Type :=
| Return (a : A)
| Raise (e : Exc).
Arguments Return {A} a.
Arguments Raise {A} e.

Inductive LogLevel : Type := WARNING | ERROR.

(** The messages the module logs, by their f-string and its arguments.
    [RequestErrorMessage] is
    [Request Error (ID: {request_id}): Code={code}, Message='{message}'],
    followed by [, Data={data}] when [shown_data] is [Some data]. *)
Inductive LogMessage : Type :=
| RequestErrorMessage (request_id : option RequestId) (code : Z)
    (message : string) (shown_data : option Value)
| Text (s : string).

(** What the pipeline leaves behind besides its result: log records and
    the tracebacks printed by [traceback.print_exc()]. *)
Inductive Event : Type :=
| Log (level : LogLevel) (msg : LogMessage)
| PrintExc (e : Exc).

(** Computations that log and may raise. *)
Definition M (A : Type) : Type := list Event -> Outcome A * list Event.

Definition ret {A : Type} (a : A) : M A := fun evs => (Return a, evs).

Definition throw {A : Type} (e : Exc) : M A := fun evs => (Raise e, evs).

Definition bind {A B : Type} (c : M A) (k : A -> M B) : M B :=
  fun evs =>
    match c evs with
    | (Return a, evs') => k a evs'
    | (Raise e, evs') => (Raise e, evs')
    end.

Definition emit (ev : Event) : M unit := fun evs => (Return tt, (evs ++ [ev])%list).

(** A call into a collaborator, which returns or raises and logs nothing
    here. *)
Definition call {A : Type} (o : Outcome A) : M A := fun evs => (o, evs).

Definition logger_log (level : LogLevel) (msg : LogMessage) : M unit :=
  emit (Log level msg).

Definition logger_error (msg : LogMessage) : M unit := logger_log ERROR msg.

Definition traceback_print_exc (e : Exc) : M unit := emit (PrintExc e).

(** An asynchronous generator that has been started: it yields items and
    then stops, normally or by raising. *)
Inductive AsyncGenerator (A : Type) : Type :=
| Stop
| Fail (e : Exc)
| Yield (item : A) (rest : AsyncGenerator A).
Arguments Stop {A}.
Arguments Fail {A} e.
Arguments Yield {A} item rest.

(** The items a consumer receives, in the order it receives them. *)
Fixpoint items {A : Type} (g : AsyncGenerator A) : list A :=
  match g with
  | Stop | Fail _ => []
  | Yield x rest => x :: items rest
  end.

(** How the generator ends: [None] for normal exhaustion. *)
Fixpoint ending {A : Type} (g : AsyncGenerator A) : option Exc :=
  match g with
  | Stop => None
  | Fail e => Some e
  | Yield _ rest => ending rest
  end.

(** The generator built from a list of items and an ending. *)
Fixpoint generator_of {A : Type} (xs : list A) (e : option Exc) : AsyncGenerator A :=
  match xs with
  | [] => match e with None => Stop | Some e => Fail e end
  | x :: rest => Yield x (generator_of rest e)
  end.

End Effects.

Declare Scope monad_scope.
Notation "x <- c ;; k" := (Effects.bind c (fun x => k))
  (at level 61, c at next level, right associativity) : monad_scope.
Notation "c ;;; k" := (Effects.bind c (fun _ => k))
  (at level 61, right associativity) : monad_scope.

(** ** a2a.types: requests, responses and errors *)

Module Types.
Import Py Effects.

(** The error classes [isinstance] tells apart. *)
Inductive ErrorClass : Type :=
| CJSONRPCError
| CJSONParseError
| CInvalidRequestError
| CUnsupportedOperationError
| CInternalError
| COtherError (name : string).

(** An error object: [code], [message] and optional [data] ([None] when
    absent), with the class it is an instance of. *)
Record ErrorObject : Type := {
  error_class : ErrorClass;
  code : Z;
  message : string;
  data : Value
}.

(** The argument [error: JSONRPCError | A2AError] of
    [_generate_error_response]: a plain [JSONRPCError], or an [A2AError]
    root model around one of the specific errors. *)
Inductive ErrorArg : Type :=
| PlainJSONRPCError (e : ErrorObject)
| A2AError (root : ErrorObject).

(** The nine request classes of the [A2ARequest] union. *)
Inductive RequestClass : Type :=
| SendMessageRequest
| SendStreamingMessageRequest
| CancelTaskRequest
| GetTaskRequest
| TaskResubscriptionRequest
| SetTaskPushNotificationConfigRequest
| GetTaskPushNotificationConfigRequest
| ListTaskPushNotificationConfigRequest
| DeleteTaskPushNotificationConfigRequest.

(** [type(request_obj).__name__] *)
Definition class_name (c : RequestClass) : string :=
  match c with
  | SendMessageRequest => "SendMessageRequest"
  | SendStreamingMessageRequest => "SendStreamingMessageRequest"
  | CancelTaskRequest => "CancelTaskRequest"
  | GetTaskRequest => "GetTaskRequest"
  | TaskResubscriptionRequest => "TaskResubscriptionRequest"
  | SetTaskPushNotificationConfigRequest => "SetTaskPushNotificationConfigRequest"
  | GetTaskPushNotificationConfigRequest => "GetTaskPushNotificationConfigRequest"
  | ListTaskPushNotificationConfigRequest => "ListTaskPushNotificationConfigRequest"
  | DeleteTaskPushNotificationConfigRequest => "DeleteTaskPushNotificationConfigRequest"
  end.

(** A validated request object: its id, its class and its parameters. *)
Record RequestObject : Type := {
  id : option RequestId;
  request_class : RequestClass;
  params : Value
}.

Record A2ARequest : Type := { root : RequestObject }.

(** What a2a.types declares and neither the source file nor the
    specification fixes: the default messages and codes of the error
    classes, the parameter shape of each request class, and the detail and
    text of a validation error for a given body. *)
Class Declarations : Type := {
  JSONParseError_message : string;
  InvalidRequestError_message : string;
  UnsupportedOperationError_code : Z;
  UnsupportedOperationError_message : string;
  InternalError_code : Z;
  InternalError_message : string;
  shape_valid : RequestClass -> Value -> bool;
  validation_errors : Value -> Value;
  validation_text : Value -> string
}.

(** Modelled from the spec: the code of [JSONParseError], declared in
    a2a.types; the malformed-body scenario gives -32700. *)
Definition JSONParseError_code : Z := -32700.

(** Modelled from the spec: the code of [InvalidRequestError], declared in
    a2a.types; the unknown-method and oversized-body scenarios give
    -32600. *)
Definition InvalidRequestError_code : Z := -32600.

Section Constructors.
Context `{Declarations}.

(** The constructors with their keyword arguments; an argument left out
    takes the class default. *)
Definition JSONParseError (msg : option string) : ErrorObject :=
  {| error_class := CJSONParseError;
     code := JSONParseError_code;
     message := match msg with Some m => m | None => JSONParseError_message end;
     data := VNone |}.

Definition InvalidRequestError (msg : option string) (dat : Value) : ErrorObject :=
  {| error_class := CInvalidRequestError;
     code := InvalidRequestError_code;
     message := match msg with Some m => m | None => InvalidRequestError_message end;
     data := dat |}.

Definition UnsupportedOperationError (msg : option string) : ErrorObject :=
  {| error_class := CUnsupportedOperationError;
     code := UnsupportedOperationError_code;
     message := match msg with Some m => m | None => UnsupportedOperationError_message end;
     data := VNone |}.

Definition InternalError (msg : option string) : ErrorObject :=
  {| error_class := CInternalError;
     code := InternalError_code;
     message := match msg with Some m => m | None => InternalError_message end;
     data := VNone |}.

(** Modelled from the spec: the method discriminators of the nine request
    classes, declared in a2a.types ([tasks/get] and [message/stream] in the
    scenarios; the others as the docstrings of the two dispatch functions
    list them). *)
Definition class_of_method (m : string) : option RequestClass :=
  if String.eqb m "message/send" then Some SendMessageRequest
  else if String.eqb m "message/stream" then Some SendStreamingMessageRequest
  else if String.eqb m "tasks/cancel" then Some CancelTaskRequest
  else if String.eqb m "tasks/get" then Some GetTaskRequest
  else if String.eqb m "tasks/resubscribe" then Some TaskResubscriptionRequest
  else if String.eqb m "tasks/pushNotificationConfig/set"
  then Some SetTaskPushNotificationConfigRequest
  else if String.eqb m "tasks/pushNotificationConfig/get"
  then Some GetTaskPushNotificationConfigRequest
  else if String.eqb m "tasks/pushNotificationConfig/list"
  then Some ListTaskPushNotificationConfigRequest
  else if String.eqb m "tasks/pushNotificationConfig/delete"
  then Some DeleteTaskPushNotificationConfigRequest
  else None.

(** The [id] of an envelope: a string, an integer, or absent/null. *)
Definition envelope_id (v : option Value) : option (option RequestId) :=
  match v with
  | None | Some VNone => Some None
  | Some (VStr s) => Some (Some (IdStr s))
  | Some (VInt z) => Some (Some (IdInt z))
  | Some _ => None
  end.

(** Modelled from the spec: [A2ARequest.model_validate], which a2a.types
    declares (Envelope Decoder, 4.1): a well-formed body decodes to exactly
    one request class, chosen by its method discriminator, or validation
    fails; an unknown or missing discriminator, a wrong id and a wrong
    parameter shape all fail. *)
Definition A2ARequest_model_validate (body : Value) : Outcome A2ARequest :=
  let invalid := Raise (ValidationError (validation_errors body) (validation_text body)) in
  match body with
  | VDict kvs =>
      match lookup "method" kvs with
      | Some (VStr m) =>
          match class_of_method m, envelope_id (lookup "id" kvs) with
          | Some c, Some request_id =>
              if shape_valid c body
              then Return {| root := {| id := request_id;
                                        request_class := c;
                                        params := match lookup "params" kvs with
                                                  | Some p => p
                                                  | None => VNone
                                                  end |} |}
              else invalid
          | _, _ => invalid
          end
      | _ => invalid
      end
  | _ => invalid
  end.

End Constructors.

(** [JSONRPCErrorResponse]: [id], [jsonrpc = '2.0'] and [error]. *)
Record JSONRPCErrorResponse : Type := {
  error_id : option RequestId;
  error : ErrorObject
}.

(** A success response ([GetTaskSuccessResponse] and its siblings): [id],
    [jsonrpc = '2.0'] and [result]. *)
Record SuccessResponse : Type := {
  result_id : option RequestId;
  result : Value
}.

(** The root of a response root model ([JSONRPCResponse],
    [SendStreamingMessageResponse]): an error response or a success
    response. *)
Inductive ResponseRoot : Type :=
| RootError (e : JSONRPCErrorResponse)
| RootSuccess (s : SuccessResponse).

(** The pydantic model instances behind the records. *)
Definition ErrorObject_model (e : ErrorObject) : Value :=
  VModel [("code", VInt (code e)); ("data", data e); ("message", VStr (message e))].

Definition JSONRPCErrorResponse_model (r : JSONRPCErrorResponse) : Value :=
  VModel [("error", ErrorObject_model (error r));
          ("id", id_value (error_id r));
          ("jsonrpc", VStr "2.0")].

Definition SuccessResponse_model (r : SuccessResponse) : Value :=
  VModel [("id", id_value (result_id r));
          ("jsonrpc", VStr "2.0");
          ("result", result r)].

Definition ResponseRoot_model (r : ResponseRoot) : Value :=
  match r with
  | RootError e => JSONRPCErrorResponse_model e
  | RootSuccess s => SuccessResponse_model s
  end.

End Types.

(** ** The application: context building, dispatch, rendering, errors *)

Module JsonRpcApp.
Import Py Effects Types.
Local Open Scope monad_scope.

(** starlette.authentication.BaseUser, by the two properties read here. *)
Record BaseUser : Type := {
  is_authenticated : bool;
  display_name : string
}.

(** a2a.auth.user.User: the unauthenticated sentinel, or the proxy that
    adapts a Starlette user. *)
Inductive A2AUser : Type :=
| UnauthenticatedUser
| StarletteUserProxy (_user : BaseUser).

Definition user_is_authenticated (u : A2AUser) : bool :=
  match u with
  | UnauthenticatedUser => false
  | StarletteUserProxy b => is_authenticated b
  end.

Definition user_name (u : A2AUser) : string :=
  match u with
  | UnauthenticatedUser => EmptyString
  | StarletteUserProxy b => display_name b
  end.

Record ServerCallContext : Type := {
  user : A2AUser;
  state : list (string * Value)
}.

(** A Starlette request, by what the pipeline reads from it: the outcome
    of [await request.json()], of the properties [request.user] and
    [request.auth] (which raise without authentication middleware), and the
    items of [request.headers], in the order received, names in lower
    case. *)
Record Request : Type := {
  json : Outcome Value;
  request_user : Outcome BaseUser;
  auth : Outcome Value;
  headers : list (string * string)
}.

(** The abstract [CallContextBuilder]: one method, [build]. *)
Record CallContextBuilder : Type := {
  build : Request -> Outcome ServerCallContext
}.

Definition DefaultCallContextBuilder_build (request : Request)
  : Outcome ServerCallContext :=
  let user0 := UnauthenticatedUser in
  let state0 : list (string * Value) := [] in
  (* with contextlib.suppress(Exception): *)
  let '(user1, state1) :=
    match request_user request with
    | Raise _ => (user0, state0)
    | Return u =>
        match auth request with
        | Raise _ => (StarletteUserProxy u, state0)
        | Return a => (StarletteUserProxy u, dict_set "auth" a state0)
        end
    end in
  let state2 :=
    dict_set "headers"
      (VDict (dict_of_mapping
                (map (fun kv => (fst kv, VStr (snd kv))) (headers request))))
      state1 in
  Return {| user := user1; state := state2 |}.

Definition DefaultCallContextBuilder : CallContextBuilder :=
  {| build := DefaultCallContextBuilder_build |}.

(** What a unary handler method returns: an explicit
    [JSONRPCErrorResponse], or a response root model. *)
Inductive UnaryResult : Type :=
| ExplicitError (e : JSONRPCErrorResponse)
| RootModel (r : ResponseRoot).

(** [JSONRPCHandler], by the signatures of its nine methods: the unary ones
    are awaited and give one result, the streaming ones give an
    asynchronous generator of [SendStreamingMessageResponse] roots. *)
Record JSONRPCHandler : Type := {
  on_message_send : RequestObject -> ServerCallContext -> Outcome UnaryResult;
  on_message_send_stream :
    RequestObject -> ServerCallContext -> Outcome (AsyncGenerator ResponseRoot);
  on_cancel_task : RequestObject -> ServerCallContext -> Outcome UnaryResult;
  on_get_task : RequestObject -> ServerCallContext -> Outcome UnaryResult;
  on_resubscribe_to_task :
    RequestObject -> ServerCallContext -> Outcome (AsyncGenerator ResponseRoot);
  set_push_notification_config :
    RequestObject -> ServerCallContext -> Outcome UnaryResult;
  get_push_notification_config :
    RequestObject -> ServerCallContext -> Outcome UnaryResult;
  list_push_notification_config :
    RequestObject -> ServerCallContext -> Outcome UnaryResult;
  delete_push_notification_config :
    RequestObject -> ServerCallContext -> Outcome UnaryResult
}.

(** The local [handler_result: Any]: [None], a generator, an explicit
    error response or a root model. *)
Inductive HandlerResult : Type :=
| HNone
| HAsyncGenerator (stream : AsyncGenerator ResponseRoot)
| HJSONRPCErrorResponse (e : JSONRPCErrorResponse)
| HRootModel (r : ResponseRoot).

Definition of_unary (u : UnaryResult) : HandlerResult :=
  match u with
  | ExplicitError e => HJSONRPCErrorResponse e
  | RootModel r => HRootModel r
  end.

(** One server-sent event: the dict [{'data': <json text>}]. *)
Definition ServerSentEvent : Type := list (string * JsonText).

(** A Starlette response: [JSONResponse(content, status_code)] or
    [EventSourceResponse(generator)]. *)
Inductive Response : Type :=
| JSONResponse (content : Value) (status_code : Z)
| EventSourceResponse (events : AsyncGenerator ServerSentEvent).

(** The default [status_code] of [JSONResponse]. *)
Definition JSONResponse_default_status_code : Z := 200.

Record JSONRPCApplication : Type := {
  handler : JSONRPCHandler;
  _context_builder : CallContextBuilder
}.

(** [__init__], by the two attributes the pipeline reads:
    [self._context_builder = context_builder or DefaultCallContextBuilder()]. *)
Definition JSONRPCApplication_init
    (jsonrpc_handler : JSONRPCHandler) (context_builder : option CallContextBuilder)
  : JSONRPCApplication :=
  {| handler := jsonrpc_handler;
     _context_builder := match context_builder with
                         | Some b => b
                         | None => DefaultCallContextBuilder
                         end |}.

Section Application.
Context `{Declarations}.
Variable self : JSONRPCApplication.

(** [isinstance(error, A2AError)] *)
Definition isinstance_A2AError (err : ErrorArg) : bool :=
  match err with
  | A2AError _ => true
  | PlainJSONRPCError _ => false
  end.

(** [isinstance(error.root, InternalError)], evaluated for an [A2AError]
    only. *)
Definition root_isinstance_InternalError (err : ErrorArg) : bool :=
  match err with
  | A2AError r =>
      match error_class r with
      | CInternalError => true
      | _ => false
      end
  | PlainJSONRPCError _ => false
  end.

(** [JSONRPCErrorResponse(id=request_id,
      error=error if isinstance(error, JSONRPCError) else error.root)] *)
Definition error_response_of (request_id : option RequestId) (err : ErrorArg)
  : JSONRPCErrorResponse :=
  {| error_id := request_id;
     error := match err with
              | PlainJSONRPCError e => e
              | A2AError r => r
              end |}.

(** [error_resp.model_dump(mode='json', exclude_none=True)] *)
Definition error_body (r : JSONRPCErrorResponse) : Value :=
  model_dump true (JSONRPCErrorResponse_model r).

Definition _generate_error_response
    (request_id : option RequestId) (err : ErrorArg) : M Response :=
  let error_resp := error_response_of request_id err in
  let log_level :=
    if negb (isinstance_A2AError err) || root_isinstance_InternalError err
    then ERROR
    else WARNING in
  logger_log log_level
    (RequestErrorMessage request_id
       (code (error error_resp)) (message (error error_resp))
       (if truthy (data (error error_resp))
        then Some (data (error error_resp)) else None)) ;;;
  ret (JSONResponse (error_body error_resp) 200).

(** The inner [event_generator]: one event per item of the stream. *)
Fixpoint event_generator (stream : AsyncGenerator ResponseRoot)
  : AsyncGenerator ServerSentEvent :=
  match stream with
  | Stop => Stop
  | Fail e => Fail e
  | Yield item rest =>
      Yield [("data", model_dump_json true (ResponseRoot_model item))]
            (event_generator rest)
  end.

Definition _create_response (handler_result : HandlerResult) : M Response :=
  match handler_result with
  | HAsyncGenerator stream =>
      ret (EventSourceResponse (event_generator stream))
  | HJSONRPCErrorResponse e =>
      ret (JSONResponse (error_body e) JSONResponse_default_status_code)
  | HRootModel r =>
      ret (JSONResponse
             (model_dump true (ResponseRoot_model r))
             JSONResponse_default_status_code)
  | HNone =>
      throw (AttributeError "'NoneType' object has no attribute 'root'")
  end.

Definition _process_streaming_request
    (request_id : option RequestId) (a2a_request : A2ARequest)
    (context : ServerCallContext) : M Response :=
  let request_obj := root a2a_request in
  handler_result <-
    match request_class request_obj with
    | SendStreamingMessageRequest =>
        g <- call (on_message_send_stream (handler self) request_obj context) ;;
        ret (HAsyncGenerator g)
    | TaskResubscriptionRequest =>
        g <- call (on_resubscribe_to_task (handler self) request_obj context) ;;
        ret (HAsyncGenerator g)
    | _ => ret HNone
    end ;;
  _create_response handler_result.

Definition _process_non_streaming_request
    (request_id : option RequestId) (a2a_request : A2ARequest)
    (context : ServerCallContext) : M Response :=
  let request_obj := root a2a_request in
  let await (m : RequestObject -> ServerCallContext -> Outcome UnaryResult) :=
    r <- call (m request_obj context) ;; ret (of_unary r) in
  handler_result <-
    match request_class request_obj with
    | SendMessageRequest => await (on_message_send (handler self))
    | CancelTaskRequest => await (on_cancel_task (handler self))
    | GetTaskRequest => await (on_get_task (handler self))
    | SetTaskPushNotificationConfigRequest =>
        await (set_push_notification_config (handler self))
    | GetTaskPushNotificationConfigRequest =>
        await (get_push_notification_config (handler self))
    | ListTaskPushNotificationConfigRequest =>
        await (list_push_notification_config (handler self))
    | DeleteTaskPushNotificationConfigRequest =>
        await (delete_push_notification_config (handler self))
    | _ =>
        logger_error
          (Text ("Unhandled validated request type: <class 'a2a.types."
                 ++ class_name (request_class request_obj) ++ "'>")) ;;;
        let error :=
          UnsupportedOperationError
            (Some ("Request type " ++ class_name (request_class request_obj)
                   ++ " is unknown.")) in
        ret (HJSONRPCErrorResponse {| error_id := request_id; error := error |})
    end ;;
  _create_response handler_result.

(** [isinstance(request_obj, TaskResubscriptionRequest | SendStreamingMessageRequest)] *)
Definition is_streaming_request (request_obj : RequestObject) : bool :=
  match request_class request_obj with
  | TaskResubscriptionRequest | SendStreamingMessageRequest => true
  | _ => false
  end.

(** The body of the [try] statement of [_handle_requests], with the value
    the local [request_id] has when the body is left. *)
Definition try_body (request : Request)
  : list Event -> option RequestId * Outcome Response * list Event :=
  fun evs =>
    let request_id : option RequestId := None in
    match json request with
    | Raise e => (request_id, Raise e, evs)
    | Return body =>
        match A2ARequest_model_validate body with
        | Raise e => (request_id, Raise e, evs)
        | Return a2a_request =>
            match build (_context_builder self) request with
            | Raise e => (request_id, Raise e, evs)
            | Return call_context =>
                let request_id := id (root a2a_request) in
                let request_obj := root a2a_request in
                let '(out, evs') :=
                  (if is_streaming_request request_obj
                   then _process_streaming_request request_id a2a_request call_context
                   else _process_non_streaming_request request_id a2a_request call_context)
                    evs in
                (request_id, out, evs')
            end
        end
    end.

(** The [except] clauses of [_handle_requests], in their order. *)
Definition except_clauses (request_id : option RequestId) (e : Exc) : M Response :=
  match e with
  | MethodNotImplementedError _ =>
      traceback_print_exc e ;;;
      _generate_error_response request_id
        (A2AError (UnsupportedOperationError None))
  | JSONDecodeError _ =>
      traceback_print_exc e ;;;
      _generate_error_response None
        (A2AError (JSONParseError (Some (exc_str e))))
  | ValidationError errors _ =>
      traceback_print_exc e ;;;
      _generate_error_response request_id
        (A2AError (InvalidRequestError None errors))
  | HTTPException status_code _ =>
      if status_code =? HTTP_413_REQUEST_ENTITY_TOO_LARGE
      then _generate_error_response request_id
             (A2AError (InvalidRequestError (Some "Payload too large") VNone))
      else throw e
  | _ =>
      logger_error (Text ("Unhandled exception: " ++ exc_str e)) ;;;
      traceback_print_exc e ;;;
      _generate_error_response request_id
        (A2AError (InternalError (Some (exc_str e))))
  end.

Definition _handle_requests (request : Request) : M Response :=
  fun evs =>
    match try_body request evs with
    | (_, Return response, evs') => (Return response, evs')
    | (request_id, Raise e, evs') => except_clauses request_id e evs'
    end.

End Application.

(** *** Reading responses *)

(** [content.get(k)] on a dumped body. *)
Definition dict_get (k : string) (content : Value) : option Value :=
  match content with
  | VDict kvs => lookup k kvs
  | _ => None
  end.

Definition is_event_stream (r : Response) : bool :=
  match r with
  | EventSourceResponse _ => true
  | JSONResponse _ _ => false
  end.

(** The [error.code] of a JSON-RPC error body. *)
Definition error_code (content : Value) : option Value :=
  match dict_get "error" content with
  | Some e => dict_get "code" e
  | None => None
  end.

Definition error_message (content : Value) : option Value :=
  match dict_get "error" content with
  | Some e => dict_get "message" e
  | None => None
  end.

(** The exceptions the [except] clauses raise again: an [HTTPException]
    whose status is not 413. *)
Definition reraised (e : Exc) : bool :=
  match e with
  | HTTPException status_code _ =>
      negb (status_code =? HTTP_413_REQUEST_ENTITY_TOO_LARGE)
  | _ => false
  end.

(** The levels of the [Request Error] records among the events, in
    order. *)
Fixpoint request_error_levels (evs : list Event) : list LogLevel :=
  match evs with
  | [] => []
  | Log level (RequestErrorMessage _ _ _ _) :: rest =>
      level :: request_error_levels rest
  | _ :: rest => request_error_levels rest
  end.

(** The routing table of the dispatcher (4.3 of the specification): the
    handler method of each request class, with its response mode. *)
Inductive Route : Type :=
| Unary (m : RequestObject -> ServerCallContext -> Outcome UnaryResult)
| Streaming
    (m : RequestObject -> ServerCallContext -> Outcome (AsyncGenerator ResponseRoot)).

Definition routing_table (h : JSONRPCHandler) (c : RequestClass) : Route :=
  match c with
  | SendMessageRequest => Unary (on_message_send h)
  | SendStreamingMessageRequest => Streaming (on_message_send_stream h)
  | CancelTaskRequest => Unary (on_cancel_task h)
  | GetTaskRequest => Unary (on_get_task h)
  | TaskResubscriptionRequest => Streaming (on_resubscribe_to_task h)
  | SetTaskPushNotificationConfigRequest => Unary (set_push_notification_config h)
  | GetTaskPushNotificationConfigRequest => Unary (get_push_notification_config h)
  | ListTaskPushNotificationConfigRequest => Unary (list_push_notification_config h)
  | DeleteTaskPushNotificationConfigRequest => Unary (delete_push_notification_config h)
  end.

(** [content] is the dump of [model] with its [None]-valued fields
    omitted: the plain dump of the model tree from which exactly those
    fields were deleted, a tree in which no model has a [None]-valued field
    left. *)
Definition omits_none_fields (model content : Value) : Prop :=
  content = model_dump false (drop_none_fields model)
  /\ has_none_field (drop_none_fields model) = false.

(** The event of one stream item. *)
Definition event_of (item : ResponseRoot) : ServerSentEvent :=
  [("data", model_dump_json true (ResponseRoot_model item))].

End JsonRpcApp.

(** ** Concrete declarations, handlers and requests *)

Module Examples.
Import Py Effects Types JsonRpcApp.

Definition has_str (k : string) (v : Value) : bool :=
  match dict_get k v with
  | Some (VStr _) => true
  | _ => false
  end.

(** A [Part] of a message: an object with a [kind], and a [text] when the
    kind is [text]. *)
Definition part_valid (part : Value) : bool :=
  match dict_get "kind" part with
  | Some (VStr k) => if String.eqb k "text" then has_str "text" part else true
  | _ => false
  end.

(** A [Message]: a [messageId], a [role] that is [user] or [agent], and a
    list of parts. *)
Definition message_valid (message : Value) : bool :=
  has_str "messageId" message
  && match dict_get "role" message with
     | Some (VStr r) => String.eqb r "user" || String.eqb r "agent"
     | _ => false
     end
  && match dict_get "parts" message with
     | Some (VList parts) => forallb part_valid parts
     | _ => false
     end.

(** The parameter objects of the nine request classes, by their required
    members: a message for [message/send] and [message/stream]; a task id
    and a configuration with a url to set a push notification
    configuration; an id and a configuration id to delete one; an id for
    the others.  [jsonrpc], when present, is [2.0]. *)
Definition params_valid (c : RequestClass) (body : Value) : bool :=
  match dict_get "jsonrpc" body with
  | None => true
  | Some (VStr v) => String.eqb v "2.0"
  | Some _ => false
  end
  && match dict_get "params" body with
     | Some params =>
         match c with
         | SendMessageRequest | SendStreamingMessageRequest =>
             match dict_get "message" params with
             | Some message => message_valid message
             | None => false
             end
         | SetTaskPushNotificationConfigRequest =>
             has_str "taskId" params
             && match dict_get "pushNotificationConfig" params with
                | Some config => has_str "url" config
                | None => false
                end
         | DeleteTaskPushNotificationConfigRequest =>
             has_str "id" params && has_str "pushNotificationConfigId" params
         | _ => has_str "id" params
         end
     | None => false
     end.

(** The declarations of a2a.types for the examples: the A2A error codes
    and default messages, the parameter shapes above, and a one-entry
    validation detail. *)
#[export] Instance a2a_types : Declarations := {|
  JSONParseError_message := "Invalid JSON payload";
  InvalidRequestError_message := "Request payload validation error";
  UnsupportedOperationError_code := -32004;
  UnsupportedOperationError_message := "This operation is not supported";
  InternalError_code := -32603;
  InternalError_message := "Internal error";
  shape_valid := params_valid;
  validation_errors := fun body =>
    VList [VDict [("type", VStr "invalid_request"); ("input", body)]];
  validation_text := fun _ => "1 validation error for A2ARequest"
|}.

Definition task : Value :=
  VModel [("id", VStr "t1"); ("contextId", VStr "c1"); ("metadata", VNone)].

Definition found (request : RequestObject) : UnaryResult :=
  RootModel (RootSuccess {| result_id := id request; result := task |}).

Definition not_found (request : RequestObject) : UnaryResult :=
  RootModel (RootError
    {| error_id := id request;
       error := {| error_class := COtherError "TaskNotFoundError";
                   code := -32001;
                   message := "Task not found";
                   data := VNone |} |}).

Definition three_items (request : RequestObject) : AsyncGenerator ResponseRoot :=
  Yield (RootSuccess {| result_id := id request; result := VModel [("n", VInt 1)] |})
    (Yield (RootSuccess {| result_id := id request; result := VModel [("n", VInt 2)] |})
       (Yield (RootSuccess {| result_id := id request; result := VModel [("n", VInt 3)] |})
          Stop)).

(** A handler that finds every task and streams three items. *)
Definition simple_handler : JSONRPCHandler := {|
  on_message_send := fun r _ => Return (found r);
  on_message_send_stream := fun r _ => Return (three_items r);
  on_cancel_task := fun r _ => Return (not_found r);
  on_get_task := fun r _ => Return (found r);
  on_resubscribe_to_task := fun r _ => Return (three_items r);
  set_push_notification_config := fun r _ => Return (found r);
  get_push_notification_config := fun r _ => Return (found r);
  list_push_notification_config := fun r _ => Return (found r);
  delete_push_notification_config := fun r _ => Return (found r)
|}.

Definition simple_app : JSONRPCApplication :=
  JSONRPCApplication_init simple_handler None.

(** A context builder that fails. *)
Definition failing_builder : CallContextBuilder :=
  {| build := fun _ => Raise (OtherException "RuntimeError" "no session") |}.

Definition app_with_failing_builder : JSONRPCApplication :=
  JSONRPCApplication_init simple_handler (Some failing_builder).

Definition no_auth : Outcome BaseUser :=
  Raise (OtherException "AssertionError"
           "AuthenticationMiddleware must be installed to access request.user").

Definition request_with (body : Outcome Value) : Request :=
  {| json := body;
     request_user := no_auth;
     auth := Raise (OtherException "AssertionError"
                      "AuthenticationMiddleware must be installed to access request.auth");
     headers := [("content-type", "application/json")] |}.

Definition envelope (request_id : Value) (method : string) (params : Value) : Value :=
  VDict [("jsonrpc", VStr "2.0"); ("id", request_id);
         ("method", VStr method); ("params", params)].

Definition get_task_request : Request :=
  request_with (Return (envelope (VInt 1) "tasks/get" (VDict [("id", VStr "t1")]))).

Definition user_message : Value :=
  VDict [("kind", VStr "message"); ("messageId", VStr "m1");
         ("role", VStr "user");
         ("parts", VList [VDict [("kind", VStr "text"); ("text", VStr "hello")]])].

Definition stream_request : Request :=
  request_with (Return (envelope (VInt 2) "message/stream"
                          (VDict [("message", user_message)]))).

Definition unknown_method_request : Request :=
  request_with (Return (envelope (VInt 3) "tasks/unknown" (VDict []))).

Definition missing_params_request : Request :=
  request_with (Return (VDict [("jsonrpc", VStr "2.0"); ("id", VInt 7);
                               ("method", VStr "tasks/get")])).

Definition truncated_request : Request :=
  request_with (Raise (JSONDecodeError
    "Expecting property name enclosed in double quotes: line 1 column 2 (char 1)")).

Definition oversized_request : Request :=
  request_with (Raise (HTTPException 413 "Request Entity Too Large")).


Definition delete_config_request : Request :=
  request_with (Return (envelope (VInt 5) "tasks/pushNotificationConfig/delete"
                          (VDict [("id", VStr "t1");
                                  ("pushNotificationConfigId", VStr "p1")]))).

(** The success of a deletion: its result is [None]. *)
Definition deleted (request : RequestObject) : UnaryResult :=
  RootModel (RootSuccess {| result_id := id request; result := VNone |}).

(** [simple_handler] with a deletion that succeeds. *)
Definition deleting_handler : JSONRPCHandler := {|
  on_message_send := fun r _ => Return (found r);
  on_message_send_stream := fun r _ => Return (three_items r);
  on_cancel_task := fun r _ => Return (not_found r);
  on_get_task := fun r _ => Return (found r);
  on_resubscribe_to_task := fun r _ => Return (three_items r);
  set_push_notification_config := fun r _ => Return (found r);
  get_push_notification_config := fun r _ => Return (found r);
  list_push_notification_config := fun r _ => Return (found r);
  delete_push_notification_config := fun r _ => Return (deleted r)
|}.

Definition deleting_app : JSONRPCApplication :=
  JSONRPCApplication_init deleting_handler None.

End Examples.

(** ** The agent card endpoints and the constructor's check *)

Module AgentCardEndpoints.
Import Py Effects Types JsonRpcApp.
Local Open Scope monad_scope.

(** An [AgentCard] instance: the fields of the model, keyed by the name
    they are serialised under. *)
Definition AgentCard : Type := list (string * Value).

(** The attribute [card.supportsAuthenticatedExtendedCard]; a card that
    does not set it has the value [None]. *)
Definition supportsAuthenticatedExtendedCard (card : AgentCard) : Value :=
  match lookup "supportsAuthenticatedExtendedCard" card with
  | Some v => v
  | None => VNone
  end.

(** [card.model_dump(exclude_none=True, by_alias=True)] *)
Definition AgentCard_model_dump (card : AgentCard) : Value :=
  model_dump true (VModel card).

(** The two cards the application keeps. *)
Record Cards : Type := {
  agent_card : AgentCard;
  extended_agent_card : option AgentCard
}.

(** starlette.status *)
Definition HTTP_404_NOT_FOUND : Z := 404.

(** The check [__init__] makes on the cards it is given. *)
Definition init_check (self : Cards) : M unit :=
  if truthy (supportsAuthenticatedExtendedCard (agent_card self))
     && match extended_agent_card self with None => true | Some _ => false end
  then logger_error
         (Text "AgentCard.supportsAuthenticatedExtendedCard is True, but no extended_agent_card was provided. The /agent/authenticatedExtendedCard endpoint will return 404.")
  else ret tt.

Definition _handle_get_agent_card (self : Cards) (request : Request) : M Response :=
  ret (JSONResponse (AgentCard_model_dump (agent_card self))
         JSONResponse_default_status_code).

Definition _handle_get_authenticated_extended_agent_card
    (self : Cards) (request : Request) : M Response :=
  if negb (truthy (supportsAuthenticatedExtendedCard (agent_card self)))
  then ret (JSONResponse
              (VDict [("error",
                       VStr "Extended agent card not supported or not enabled.")])
              HTTP_404_NOT_FOUND)
  else
    match extended_agent_card self with
    | Some card =>
        ret (JSONResponse (AgentCard_model_dump card)
               JSONResponse_default_status_code)
    | None =>
        ret (JSONResponse
               (VDict [("error",
                        VStr "Authenticated extended agent card is supported but not configured on the server.")])
               HTTP_404_NOT_FOUND)
    end.

(** The messages an event list holds at ERROR level as plain text. *)
Fixpoint error_texts (evs : list Event) : list string :=
  match evs with
  | [] => []
  | Log ERROR (Text s) :: rest => s :: error_texts rest
  | _ :: rest => error_texts rest
  end.

End AgentCardEndpoints.

(** ** Dispatch followed by rendering *)

Module Dispatch.
Import Py Effects Types JsonRpcApp.

(** The body rendered for what a unary handler method returns. *)
Definition unary_body (u : UnaryResult) : Value :=
  match u with
  | ExplicitError e => error_body e
  | RootModel r => model_dump true (ResponseRoot_model r)
  end.

(** The method the routing table gives for the class of [request_obj],
    called on it, and its result rendered; an exception of the method is
    passed on. *)
Definition routed_outcome
    (h : JSONRPCHandler) (request_obj : RequestObject) (context : ServerCallContext)
  : Outcome Response :=
  match routing_table h (request_class request_obj) with
  | Unary m =>
      match m request_obj context with
      | Return u => Return (JSONResponse (unary_body u) 200)
      | Raise e => Raise e
      end
  | Streaming m =>
      match m request_obj context with
      | Return stream => Return (EventSourceResponse (event_generator stream))
      | Raise e => Raise e
      end
  end.

(** The id an error response for the exception [e] is given when the
    local [request_id] holds [request_id]. *)
Definition error_response_id (request_id : option RequestId) (e : Exc)
  : option RequestId :=
  match e with
  | JSONDecodeError _ => None
  | _ => request_id
  end.

(** The id of what a unary handler method returns. *)
Definition unary_result_id (u : UnaryResult) : option RequestId :=
  match u with
  | ExplicitError e | RootModel (RootError e) => error_id e
  | RootModel (RootSuccess s) => result_id s
  end.

(** The [id] entry of a dumped response whose id is [request_id]. *)
Definition id_entry (request_id : option RequestId) : option Value :=
  match request_id with
  | None => None
  | Some i => Some (id_value (Some i))
  end.

Definition is_HTTPException (e : Exc) : bool :=
  match e with
  | HTTPException _ _ => true
  | _ => false
  end.

End Dispatch.

(** ** Exceptions outside the [Exception] hierarchy *)

Module Interrupts.
Import Py Effects Types JsonRpcApp.

(** A [BaseException] that is not an [Exception]: [asyncio.CancelledError]
    delivered at an await, [KeyboardInterrupt], [SystemExit]. *)
Record BaseExc : Type := {
  base_class_name : string;
  base_message : string
}.

(** Where a collaborator raises such an exception instead of doing what
    [Request], [CallContextBuilder] and [JSONRPCHandler] tell: at
    [await request.json()], in [A2ARequest.model_validate] of a body, in
    [build], or in the handler method called on a request object and a
    context.  [None] where it does not. *)
Record Interruptions : Type := {
  json_interrupt : option BaseExc;
  validate_interrupt : Value -> option BaseExc;
  build_interrupt : option BaseExc;
  handler_interrupt : RequestObject -> ServerCallContext -> option BaseExc
}.

Definition no_interruptions : Interruptions :=
  {| json_interrupt := None;
     validate_interrupt := fun _ => None;
     build_interrupt := None;
     handler_interrupt := fun _ _ => None |}.


Section WithInterrupts.
Context `{Declarations}.
Variable i : Interruptions.
Variable self : JSONRPCApplication.



End WithInterrupts.


End Interrupts.

(** ** Further handlers, cards and requests *)

Module MoreExamples.
Import Py Effects Types JsonRpcApp AgentCardEndpoints Interrupts Examples.

(** A handler like [simple_handler] whose [on_get_task] is not
    implemented and whose [on_cancel_task] fails. *)
Definition partial_handler : JSONRPCHandler := {|
  on_message_send := fun r _ => Return (found r);
  on_message_send_stream := fun r _ => Return (three_items r);
  on_cancel_task := fun _ _ => Raise (OtherException "RuntimeError" "store offline");
  on_get_task := fun _ _ => Raise (MethodNotImplementedError "tasks/get");
  on_resubscribe_to_task := fun r _ => Return (three_items r);
  set_push_notification_config := fun r _ => Return (found r);
  get_push_notification_config := fun r _ => Return (found r);
  list_push_notification_config := fun r _ => Return (found r);
  delete_push_notification_config := fun r _ => Return (found r)
|}.

Definition partial_app : JSONRPCApplication :=
  JSONRPCApplication_init partial_handler None.

(** A handler that answers [tasks/get] with an id of its own. *)
Definition renumbering_handler : JSONRPCHandler := {|
  on_message_send := fun r _ => Return (found r);
  on_message_send_stream := fun r _ => Return (three_items r);
  on_cancel_task := fun r _ => Return (not_found r);
  on_get_task := fun _ _ =>
    Return (RootModel (RootSuccess {| result_id := Some (IdStr "other");
                                      result := task |}));
  on_resubscribe_to_task := fun r _ => Return (three_items r);
  set_push_notification_config := fun r _ => Return (found r);
  get_push_notification_config := fun r _ => Return (found r);
  list_push_notification_config := fun r _ => Return (found r);
  delete_push_notification_config := fun r _ => Return (found r)
|}.

Definition renumbering_app : JSONRPCApplication :=
  JSONRPCApplication_init renumbering_handler None.

(** A handler whose stream fails after its first item. *)
Definition first_item (request : RequestObject) : ResponseRoot :=
  RootSuccess {| result_id := id request; result := VModel [("n", VInt 1)] |}.

Definition breaking_handler : JSONRPCHandler := {|
  on_message_send := fun r _ => Return (found r);
  on_message_send_stream := fun r _ =>
    Return (generator_of [first_item r]
              (Some (OtherException "RuntimeError" "agent crashed")));
  on_cancel_task := fun r _ => Return (not_found r);
  on_get_task := fun r _ => Return (found r);
  on_resubscribe_to_task := fun r _ => Return (three_items r);
  set_push_notification_config := fun r _ => Return (found r);
  get_push_notification_config := fun r _ => Return (found r);
  list_push_notification_config := fun r _ => Return (found r);
  delete_push_notification_config := fun r _ => Return (found r)
|}.

Definition breaking_app : JSONRPCApplication :=
  JSONRPCApplication_init breaking_handler None.

Definition cancel_task_request : Request :=
  request_with (Return (envelope (VStr "c-9") "tasks/cancel" (VDict [("id", VStr "t1")]))).

Definition get_task_object : A2ARequest :=
  {| root := {| id := Some (IdInt 1); request_class := GetTaskRequest;
                params := VDict [("id", VStr "t1")] |} |}.

Definition stream_object : A2ARequest :=
  {| root := {| id := Some (IdInt 2); request_class := SendStreamingMessageRequest;
                params := VDict [("message", user_message)] |} |}.

Definition delete_config_object : A2ARequest :=
  {| root := {| id := Some (IdInt 5);
                request_class := DeleteTaskPushNotificationConfigRequest;
                params := VDict [("id", VStr "t1");
                                 ("pushNotificationConfigId", VStr "p1")] |} |}.

(** A request with a header sent twice. *)
Definition repeated_header_request : Request :=
  {| json := Return (envelope (VInt 1) "tasks/get" (VDict [("id", VStr "t1")]));
     request_user := no_auth;
     auth := Raise (OtherException "AssertionError"
                      "AuthenticationMiddleware must be installed to access request.auth");
     headers := [("accept", "application/json"); ("x-trace", "first");
                 ("x-trace", "second")] |}.


Definition anonymous_context : ServerCallContext :=
  {| user := UnauthenticatedUser; state := [] |}.

(** A request that comes with an authenticated user and two headers. *)
Definition signed_in_request : Request :=
  {| json := Return (envelope (VInt 1) "tasks/get" (VDict [("id", VStr "t1")]));
     request_user := Return {| is_authenticated := true; display_name := "ada" |};
     auth := Return (VList [VStr "read"]);
     headers := [("content-type", "application/json"); ("x-trace", "abc")] |}.

Definition public_card : AgentCard :=
  [("name", VStr "agent"); ("description", VNone);
   ("supportsAuthenticatedExtendedCard", VBool true)].

Definition private_card : AgentCard :=
  [("name", VStr "agent (extended)"); ("description", VStr "all skills");
   ("supportsAuthenticatedExtendedCard", VBool true)].

Definition configured_cards : Cards :=
  {| agent_card := public_card; extended_agent_card := Some private_card |}.

Definition unconfigured_cards : Cards :=
  {| agent_card := public_card; extended_agent_card := None |}.

End MoreExamples.

(** * Properties *)

Import Py Effects Types JsonRpcApp.

(** ** Serialisation *)

Lemma model_dump_model (exclude_none : bool) (fs : list (string * Value)) :
  model_dump exclude_none (VModel fs) = VDict (dump_fields exclude_none fs).
Proof.
  simpl. f_equal.
  induction fs as [| [k x] rest IH]; simpl; [reflexivity |].
  destruct (exclude_none && is_none x); rewrite IH; reflexivity.
Qed.

Lemma model_dump_dict (exclude_none : bool) (kvs : list (string * Value)) :
  model_dump exclude_none (VDict kvs) = VDict (dump_entries exclude_none kvs).
Proof.
  simpl. f_equal.
  induction kvs as [| [k x] rest IH]; simpl; [reflexivity |].
  rewrite IH. reflexivity.
Qed.

(** Dumping with [exclude_none] is dumping, without it, the model tree
    from which the [None]-valued fields were deleted. *)
Lemma model_dump_exclude_none (v : Value) :
  model_dump true v = model_dump false (drop_none_fields v).
Proof.
  induction v as [| b | z | s | xs IH | kvs IH | fs IH] using Value_nested_ind;
    try reflexivity.
  - simpl. f_equal. rewrite map_map.
    induction IH as [| x rest Hx _ IHrest]; simpl; [reflexivity |].
    rewrite Hx, IHrest. reflexivity.
  - simpl. f_equal.
    induction IH as [| [k x] rest Hx _ IHrest]; simpl in *; [reflexivity |].
    rewrite Hx, IHrest. reflexivity.
  - simpl. f_equal.
    induction IH as [| [k x] rest Hx _ IHrest]; simpl in *; [reflexivity |].
    destruct (is_none x); simpl; [exact IHrest |].
    rewrite Hx, IHrest. reflexivity.
Qed.

(** After the deletion no model has a [None]-valued field left. *)
Lemma drop_none_fields_clean (v : Value) :
  has_none_field (drop_none_fields v) = false.
Proof.
  induction v as [| b | z | s | xs IH | kvs IH | fs IH] using Value_nested_ind;
    try reflexivity.
  - simpl.
    induction IH as [| x rest Hx _ IHrest]; simpl; [reflexivity |].
    rewrite Hx, IHrest. reflexivity.
  - simpl.
    induction IH as [| [k x] rest Hx _ IHrest]; simpl in *; [reflexivity |].
    rewrite Hx, IHrest. reflexivity.
  - simpl.
    induction IH as [| [k x] rest Hx _ IHrest]; simpl in *; [reflexivity |].
    destruct (is_none x) eqn:Hnone; simpl; [exact IHrest |].
    assert (Hkeep : is_none (drop_none_fields x) = false).
    { destruct x; simpl in *; try reflexivity; discriminate. }
    rewrite Hkeep, Hx, IHrest. reflexivity.
Qed.

(** The deletion touches nothing else: a model without [None]-valued
    fields is left as it is. *)
Lemma drop_none_fields_id (v : Value) :
  has_none_field v = false -> drop_none_fields v = v.
Proof.
  induction v as [| b | z | s | xs IH | kvs IH | fs IH] using Value_nested_ind;
    try reflexivity.
  - simpl. intros Hv. f_equal.
    induction IH as [| x rest Hx _ IHrest]; simpl in *; [reflexivity |].
    apply orb_false_iff in Hv as [H1 H2].
    rewrite Hx, IHrest by assumption. reflexivity.
  - simpl. intros Hv. f_equal.
    induction IH as [| [k x] rest Hx _ IHrest]; simpl in *; [reflexivity |].
    apply orb_false_iff in Hv as [H1 H2].
    rewrite Hx, IHrest by assumption. reflexivity.
  - simpl. intros Hv. f_equal.
    induction IH as [| [k x] rest Hx _ IHrest]; simpl in *; [reflexivity |].
    apply orb_false_iff in Hv as [H1 H2].
    apply orb_false_iff in H1 as [H0 H1].
    rewrite H0, Hx, IHrest by assumption. reflexivity.
Qed.

(** Every key of the dump of a model comes from a field whose value is
    not [None]. *)
Lemma lookup_dump_fields_inv (k : string) (fs : list (string * Value)) (y : Value) :
  lookup k (dump_fields true fs) = Some y ->
  exists x, In (k, x) fs /\ x <> VNone /\ y = model_dump true x.
Proof.
  induction fs as [| [k' x] rest IH]; simpl; [discriminate |].
  destruct (is_none x) eqn:Hnone; simpl.
  - intros Hy. destruct (IH Hy) as (x0 & Hin & Hx0 & ->).
    exists x0. auto.
  - destruct (String.eqb k k') eqn:Hk.
    + apply String.eqb_eq in Hk. subst k'. intros [= <-].
      exists x. repeat split; auto.
      intros ->. discriminate.
    + intros Hy. destruct (IH Hy) as (x0 & Hin & Hx0 & ->).
      exists x0. auto.
Qed.

(** A field whose value is not [None] is a key of the dump. *)
Lemma lookup_dump_fields_some (k : string) (fs : list (string * Value)) (x : Value) :
  lookup k fs = Some x -> x <> VNone ->
  lookup k (dump_fields true fs) = Some (model_dump true x).
Proof.
  induction fs as [| [k' x'] rest IH]; simpl; [discriminate |].
  destruct (String.eqb k k') eqn:Hk.
  - intros [= ->] Hx.
    destruct x; simpl; try rewrite Hk; try reflexivity. contradiction.
  - intros Hl Hx. destruct (is_none x'); simpl; [auto |].
    rewrite Hk. auto.
Qed.

(** ** Error bodies *)

Section Pipeline.
Context `{Declarations}.

Lemma generate_error_response_result
    (request_id : option RequestId) (err : ErrorArg) (evs : list Event) :
  fst (_generate_error_response request_id err evs) =
  Return (JSONResponse (error_body (error_response_of request_id err)) 200).
Proof. reflexivity. Qed.

Lemma generate_error_response_events
    (request_id : option RequestId) (err : ErrorArg) (evs : list Event) :
  exists msg,
    snd (_generate_error_response request_id err evs) =
    (evs ++ [Log (if negb (isinstance_A2AError err)
                     || root_isinstance_InternalError err
                  then ERROR else WARNING) msg])%list
    /\ msg = RequestErrorMessage request_id
               (code (error (error_response_of request_id err)))
               (message (error (error_response_of request_id err)))
               (if truthy (data (error (error_response_of request_id err)))
                then Some (data (error (error_response_of request_id err)))
                else None).
Proof. eexists. split; reflexivity. Qed.

(** The keys of an error body: [error] with [code] and [message], [jsonrpc],
    and [id] exactly when the id is not [None]; never [result]. *)
Lemma error_body_keys (r : JSONRPCErrorResponse) :
  error_code (error_body r) = Some (VInt (code (error r)))
  /\ error_message (error_body r) = Some (VStr (message (error r)))
  /\ dict_get "jsonrpc" (error_body r) = Some (VStr "2.0")
  /\ dict_get "result" (error_body r) = None
  /\ dict_get "id" (error_body r) =
     match error_id r with
     | None => None
     | Some i => Some (id_value (Some i))
     end.
Proof.
  destruct r as [rid [cls c m d]]. unfold error_body, error_code, error_message.
  unfold JSONRPCErrorResponse_model, ErrorObject_model. cbn [error code message data error_id].
  rewrite !model_dump_model.
  destruct rid as [[s | z] |]; cbn -[model_dump String.eqb];
    rewrite !model_dump_model; destruct d; cbn; repeat split; reflexivity.
Qed.

Lemma error_body_has_error (r : JSONRPCErrorResponse) :
  exists e, dict_get "error" (error_body r) = Some e.
Proof.
  destruct (error_body_keys r) as (Hc & _).
  unfold error_code in Hc.
  destruct (dict_get "error" (error_body r)) as [e |]; [eauto | discriminate].
Qed.

End Pipeline.

(** ** The error boundary *)

Lemma except_clauses_reraise `{Declarations}
    (request_id : option RequestId) (e : Exc) (evs : list Event) :
  reraised e = true -> except_clauses request_id e evs = (Raise e, evs).
Proof.
  destruct e; simpl; try discriminate.
  unfold except_clauses.
  destruct (status_code =? HTTP_413_REQUEST_ENTITY_TOO_LARGE); [discriminate |].
  reflexivity.
Qed.

Lemma except_clauses_translate `{Declarations}
    (request_id : option RequestId) (e : Exc) (evs : list Event) :
  reraised e = false ->
  exists r evs',
    except_clauses request_id e evs = (Return (JSONResponse (error_body r) 200), evs').
Proof.
  destruct e; simpl; intros Hre;
    try (eexists; eexists; reflexivity).
  unfold except_clauses.
  destruct (status_code =? HTTP_413_REQUEST_ENTITY_TOO_LARGE);
    [| discriminate].
  eexists; eexists; reflexivity.
Qed.

Lemma handle_requests_unfold `{Declarations}
    (self : JSONRPCApplication) (request : Request) (evs : list Event) :
  _handle_requests self request evs =
  match try_body self request evs with
  | (_, Return response, evs') => (Return response, evs')
  | (request_id, Raise e, evs') => except_clauses request_id e evs'
  end.
Proof. reflexivity. Qed.

(** ** Failures before dispatch *)

Lemma try_body_json_raises `{Declarations}
    (self : JSONRPCApplication) (request : Request) (e : Exc) (evs : list Event) :
  json request = Raise e -> try_body self request evs = (None, Raise e, evs).
Proof. unfold try_body. intros ->. reflexivity. Qed.

(** Validation fails with a [ValidationError] only, whose detail and text
    are those of the body. *)
Lemma model_validate_raises `{Declarations} (body : Value) (e : Exc) :
  A2ARequest_model_validate body = Raise e ->
  e = ValidationError (validation_errors body) (validation_text body).
Proof.
  unfold A2ARequest_model_validate.
  destruct body as [| | | | | kvs |]; try (intros [= <-]; reflexivity).
  destruct (lookup "method" kvs) as [[| | | m | | |] |];
    try (intros [= <-]; reflexivity).
  destruct (class_of_method m) as [c |]; [| intros [= <-]; reflexivity].
  destruct (envelope_id (lookup "id" kvs)) as [request_id |];
    [| intros [= <-]; reflexivity].
  destruct (shape_valid c (VDict kvs)); [discriminate | intros [= <-]; reflexivity].
Qed.

Lemma try_body_validation_fails `{Declarations}
    (self : JSONRPCApplication) (request : Request) (body : Value) (e : Exc)
    (evs : list Event) :
  json request = Return body ->
  A2ARequest_model_validate body = Raise e ->
  try_body self request evs = (None, Raise e, evs).
Proof. unfold try_body. intros -> ->. reflexivity. Qed.

(** What a body that fails validation is answered with. *)
Lemma validation_failure_response `{Declarations}
    (self : JSONRPCApplication) (request : Request) (body : Value) (e : Exc)
    (evs : list Event) :
  json request = Return body ->
  A2ARequest_model_validate body = Raise e ->
  _handle_requests self request evs =
  (Return (JSONResponse
             (error_body {| error_id := None;
                            error := InvalidRequestError None (validation_errors body) |})
             200),
   (evs ++ [PrintExc e;
            Log WARNING
              (RequestErrorMessage None InvalidRequestError_code
                 InvalidRequestError_message
                 (if truthy (validation_errors body)
                  then Some (validation_errors body) else None))])%list).
Proof.
  intros Hjson Hval.
  rewrite handle_requests_unfold, (try_body_validation_fails self request evs Hjson Hval).
  rewrite (model_validate_raises body Hval).
  unfold except_clauses, bind, traceback_print_exc, emit, _generate_error_response,
    bind, logger_log, emit, ret.
  cbn. rewrite <- app_assoc. reflexivity.
Qed.



(** C8.  When the body of the [try] statement raises the transport's
    body-too-large signal, an [HTTPException] with status 413, the result is
    a [JSONResponse] of status 200: the body of an error response with the
    id known at that point and an [InvalidRequestError] of code -32600 and
    message [Payload too large].  When the signal comes from reading the
    body, no id is known and the dumped body has no [id] entry.  The
    exception does not leave [_handle_requests]. *)
Theorem oversized_body_invalid_request `{Declarations}
    (self : JSONRPCApplication) (request : Request) (detail : string)
    (request_id : option RequestId) (evs evs' : list Event) :
  try_body self request evs =
    (request_id, Raise (HTTPException 413 detail), evs') ->
  exists content,
    _handle_requests self request evs =
      (Return (JSONResponse content 200),
       (evs' ++ [Log WARNING
                   (RequestErrorMessage request_id (-32600) "Payload too large" None)])%list)
    /\ content = error_body
                   {| error_id := request_id;
                      error := InvalidRequestError (Some "Payload too large") VNone |}
    /\ error_code content = Some (VInt (-32600))
    /\ error_message content = Some (VStr "Payload too large")
    /\ dict_get "id" content =
         match request_id with
         | None => None
         | Some i => Some (id_value (Some i))
         end
    /\ (json request = Raise (HTTPException 413 detail) ->
        request_id = None /\ dict_get "id" content = None).
Proof.
  intros Htry. rewrite handle_requests_unfold, Htry.
  eexists. split; [reflexivity |].
  split; [reflexivity |].
  pose proof (error_body_keys
                {| error_id := request_id;
                   error := InvalidRequestError (Some "Payload too large") VNone |})
    as (Hcode & Hmsg & _ & _ & Hid).
  cbn [error error_id code message InvalidRequestError] in Hcode, Hmsg, Hid.
  split; [exact Hcode |]. split; [exact Hmsg |]. split; [exact Hid |].
  intros Hjson.
  rewrite (try_body_json_raises self request evs Hjson) in Htry.
  injection Htry as <- _. split; [reflexivity | exact Hid].
Qed.

Lemma oversized_body_invalid_request_witness :
  exists content,
    fst (_handle_requests (H := Examples.a2a_types) Examples.simple_app
           Examples.oversized_request []) =
    Return (JSONResponse content 200)
    /\ content = VDict [("error", VDict [("code", VInt (-32600));
                                         ("message", VStr "Payload too large")]);
                        ("jsonrpc", VStr "2.0")].
Proof.
  destruct (@oversized_body_invalid_request Examples.a2a_types Examples.simple_app
              Examples.oversized_request "Request Entity Too Large" None [] []
              eq_refl)
    as (content & Hrun & Hcontent & _).
  exists content. rewrite Hrun. split; [reflexivity | exact Hcontent].
Defined.

(** C3 (as amended).  A well-formed body that fails schema validation is
    answered with the body of an error response whose id is [None] and
    whose error is [InvalidRequestError], with code -32600 and the
    validation detail as data: the local [request_id] is assigned only after
    validation has succeeded, so the dumped body has no [id] entry whether
    or not the request body holds a top-level id. *)
Theorem validation_failure_has_no_id `{Declarations}
    (self : JSONRPCApplication) (request : Request) (body : Value)
    (evs : list Event) :
  json request = Return body ->
  (exists e, A2ARequest_model_validate body = Raise e) ->
  exists content evs',
    _handle_requests self request evs = (Return (JSONResponse content 200), evs')
    /\ content = error_body
                   {| error_id := None;
                      error := InvalidRequestError None (validation_errors body) |}
    /\ error_code content = Some (VInt (-32600))
    /\ dict_get "id" content = None.
Proof.
  intros Hjson [e Hval].
  rewrite (validation_failure_response self request evs Hjson Hval).
  eexists. eexists. split; [reflexivity |]. split; [reflexivity |].
  pose proof (error_body_keys
                {| error_id := None;
                   error := InvalidRequestError None (validation_errors body) |})
    as (Hcode & _ & _ & _ & Hid).
  split; assumption.
Qed.

Lemma validation_failure_has_no_id_witness :
  exists content evs',
    _handle_requests (H := Examples.a2a_types) Examples.simple_app
      Examples.missing_params_request [] =
    (Return (JSONResponse content 200), evs')
    /\ dict_get "id" content = None.
Proof.
  destruct (@validation_failure_has_no_id Examples.a2a_types Examples.simple_app
              Examples.missing_params_request _ [] eq_refl
              (ex_intro _ _ eq_refl))
    as (content & evs' & Hrun & _ & _ & Hid).
  exists content, evs'. split; assumption.
Defined.

(** C3 as stated fails: the body
    [{"jsonrpc": "2.0", "id": 7, "method": "tasks/get"}] is well-formed,
    holds the top-level id 7 and fails validation (no parameters), and the
    error response does not echo the id. *)
Lemma validation_failure_drops_recoverable_id :
  json Examples.missing_params_request =
    Return (VDict [("jsonrpc", VStr "2.0"); ("id", VInt 7);
                   ("method", VStr "tasks/get")])
  /\ envelope_id (lookup "id" [("jsonrpc", VStr "2.0"); ("id", VInt 7);
                               ("method", VStr "tasks/get")])
     = Some (Some (IdInt 7))
  /\ fst (_handle_requests (H := Examples.a2a_types) Examples.simple_app
            Examples.missing_params_request []) =
     Return (JSONResponse
               (VDict
                  [("error",
                    VDict
                      [("code", VInt (-32600));
                       ("data",
                        VList
                          [VDict
                             [("type", VStr "invalid_request");
                              ("input",
                               VDict [("jsonrpc", VStr "2.0"); ("id", VInt 7);
                                      ("method", VStr "tasks/get")])]]);
                       ("message", VStr "Request payload validation error")]);
                   ("jsonrpc", VStr "2.0")])
               200).
Proof. repeat split; reflexivity. Qed.

(** C2 (as amended).  A well-formed body whose method discriminator is
    none of the nine known ones fails validation, and is answered with a
    [JSONResponse] of status 200 carrying an [InvalidRequestError], code
    -32600 with the default message, and no id; [_handle_requests] does
    not raise. *)
Theorem unknown_method_invalid_request `{Declarations}
    (self : JSONRPCApplication) (request : Request)
    (kvs : list (string * Value)) (m : string) (evs : list Event) :
  json request = Return (VDict kvs) ->
  lookup "method" kvs = Some (VStr m) ->
  class_of_method m = None ->
  exists content evs',
    _handle_requests self request evs = (Return (JSONResponse content 200), evs')
    /\ content = error_body
                   {| error_id := None;
                      error := InvalidRequestError None (validation_errors (VDict kvs)) |}
    /\ error_code content = Some (VInt (-32600))
    /\ error_message content = Some (VStr InvalidRequestError_message)
    /\ dict_get "id" content = None.
Proof.
  intros Hjson Hmethod Hclass.
  assert (Hval : A2ARequest_model_validate (VDict kvs) =
                 Raise (ValidationError (validation_errors (VDict kvs))
                          (validation_text (VDict kvs)))).
  { unfold A2ARequest_model_validate. rewrite Hmethod, Hclass. reflexivity. }
  rewrite (validation_failure_response self request evs Hjson Hval).
  eexists. eexists. split; [reflexivity |]. split; [reflexivity |].
  pose proof (error_body_keys
                {| error_id := None;
                   error := InvalidRequestError None (validation_errors (VDict kvs)) |})
    as (Hcode & Hmsg & _ & _ & Hid).
  repeat split; assumption.
Qed.

Lemma unknown_method_invalid_request_witness :
  exists content evs',
    _handle_requests (H := Examples.a2a_types) Examples.simple_app
      Examples.unknown_method_request [] =
    (Return (JSONResponse content 200), evs')
    /\ error_code content = Some (VInt (-32600)).
Proof.
  destruct (@unknown_method_invalid_request Examples.a2a_types Examples.simple_app
              Examples.unknown_method_request _ "tasks/unknown" []
              eq_refl eq_refl eq_refl)
    as (content & evs' & Hrun & _ & Hcode & _).
  exists content, evs'. split; assumption.
Defined.

(** C2 as stated fails: the method [tasks/unknown] is none of the nine, and
    the response carries the code of [InvalidRequestError], -32600, with its
    message, not those of [UnsupportedOperationError]. *)
Lemma unknown_method_is_not_unsupported_operation :
  class_of_method "tasks/unknown" = None
  /\ exists content evs',
       _handle_requests (H := Examples.a2a_types) Examples.simple_app
         Examples.unknown_method_request [] =
       (Return (JSONResponse content 200), evs')
       /\ error_code content = Some (VInt (-32600))
       /\ error_message content = Some (VStr "Request payload validation error")
       /\ error_code content
          <> Some (VInt (code (UnsupportedOperationError (H := Examples.a2a_types) None)))
       /\ error_message content
          <> Some (VStr (message (UnsupportedOperationError (H := Examples.a2a_types) None))).
Proof.
  split; [reflexivity |].
  eexists. eexists. split; [reflexivity |].
  repeat split; try reflexivity; discriminate.
Qed.

(** ** Dispatch and rendering *)

(** The two dispatch functions follow the routing table. *)
Lemma process_non_streaming_request_route `{Declarations}
    (self : JSONRPCApplication) (request_id : option RequestId)
    (a2a_request : A2ARequest) (context : ServerCallContext) (evs : list Event)
    (m : RequestObject -> ServerCallContext -> Outcome UnaryResult) :
  routing_table (handler self) (request_class (root a2a_request)) = Unary m ->
  _process_non_streaming_request self request_id a2a_request context evs =
  match m (root a2a_request) context with
  | Return u => _create_response (of_unary u) evs
  | Raise e => (Raise e, evs)
  end.
Proof.
  unfold _process_non_streaming_request, routing_table.
  destruct (request_class (root a2a_request)); intros [= <-];
    unfold bind, call, ret;
    match goal with
    | |- context [match ?o with Return _ => _ | Raise _ => _ end] => destruct o
    end; reflexivity.
Qed.

Lemma process_streaming_request_route `{Declarations}
    (self : JSONRPCApplication) (request_id : option RequestId)
    (a2a_request : A2ARequest) (context : ServerCallContext) (evs : list Event)
    (m : RequestObject -> ServerCallContext -> Outcome (AsyncGenerator ResponseRoot)) :
  routing_table (handler self) (request_class (root a2a_request)) = Streaming m ->
  _process_streaming_request self request_id a2a_request context evs =
  match m (root a2a_request) context with
  | Return stream => (Return (EventSourceResponse (event_generator stream)), evs)
  | Raise e => (Raise e, evs)
  end.
Proof.
  unfold _process_streaming_request, routing_table.
  destruct (request_class (root a2a_request)); intros [= <-];
    unfold bind, call, ret;
    match goal with
    | |- context [match ?o with Return _ => _ | Raise _ => _ end] => destruct o
    end; reflexivity.
Qed.

(** The streaming test of [_handle_requests] holds for the two streaming
    classes and for no other. *)
Lemma is_streaming_request_classes (request_obj : RequestObject) :
  is_streaming_request request_obj = true <->
  request_class request_obj = SendStreamingMessageRequest
  \/ request_class request_obj = TaskResubscriptionRequest.
Proof.
  unfold is_streaming_request.
  destruct (request_class request_obj); split;
    try discriminate; try (intros [? | ?]; discriminate); auto.
Qed.

Lemma is_streaming_request_route (h : JSONRPCHandler) (request_obj : RequestObject) :
  match routing_table h (request_class request_obj) with
  | Streaming _ => is_streaming_request request_obj = true
  | Unary _ => is_streaming_request request_obj = false
  end.
Proof.
  unfold is_streaming_request, routing_table.
  destruct (request_class request_obj); reflexivity.
Qed.

(** The body of a success response: [id] when it is not [None], [jsonrpc],
    and [result] when it is not [None]; never [error]. *)
Lemma success_body_keys (s : SuccessResponse) :
  dict_get "error" (model_dump true (SuccessResponse_model s)) = None
  /\ dict_get "jsonrpc" (model_dump true (SuccessResponse_model s)) = Some (VStr "2.0")
  /\ dict_get "id" (model_dump true (SuccessResponse_model s)) =
     match result_id s with
     | None => None
     | Some i => Some (id_value (Some i))
     end
  /\ (result s <> VNone ->
      dict_get "result" (model_dump true (SuccessResponse_model s)) =
      Some (model_dump true (result s))).
Proof.
  destruct s as [rid res]. unfold SuccessResponse_model. cbn [result_id result].
  rewrite model_dump_model.
  assert (Hres : res <> VNone -> is_none res = false).
  { destruct res; try reflexivity. contradiction. }
  destruct rid as [[s | z] |]; cbn -[model_dump];
    destruct (is_none res) eqn:Hn; cbn -[model_dump];
    repeat split; try reflexivity;
    intros Hne; specialize (Hres Hne); congruence.
Qed.

(** Off the keys [error] and [result], an error body and a success body
    with the same id agree. *)
Lemma error_and_success_bodies_agree
    (e : JSONRPCErrorResponse) (s : SuccessResponse) (k : string) :
  error_id e = result_id s ->
  k <> "error" -> k <> "result" ->
  dict_get k (error_body e) = dict_get k (model_dump true (SuccessResponse_model s)).
Proof.
  destruct e as [eid [cls c m d]], s as [rid res]. cbn [error_id result_id].
  intros -> Herr Hres.
  apply String.eqb_neq in Herr, Hres.
  unfold error_body, JSONRPCErrorResponse_model, SuccessResponse_model.
  cbn [error error_id result_id result].
  rewrite !model_dump_model.
  unfold dict_get.
  destruct rid as [[s | z] |]; cbn -[model_dump String.eqb];
    rewrite Herr; destruct (is_none res); cbn -[model_dump String.eqb];
    try rewrite Hres; reflexivity.
Qed.

Lemma success_body_result (s : SuccessResponse) :
  dict_get "result" (model_dump true (SuccessResponse_model s)) =
  if is_none (result s) then None else Some (model_dump true (result s)).
Proof.
  destruct s as [rid res]. unfold SuccessResponse_model. cbn [result_id result].
  rewrite model_dump_model.
  destruct rid as [[s | z] |]; cbn -[model_dump];
    destruct (is_none res); reflexivity.
Qed.

(** C4 (as amended).  For a request of a unary class, whatever the handler
    method returns is rendered as a [JSONResponse] with status 200: an
    explicit error (bare or as the root of a response model) gives the body
    of the error response, which has an [error] entry and no [result]
    entry; a success gives the dump of the success response, which has no
    [error] entry and carries its result under [result] unless the result
    is [None]: a [None] result is left out like any [None]-valued field, and
    the body then has neither entry.  With the same id the two bodies agree
    on every other key. *)
Theorem unary_error_and_success_same_status `{Declarations}
    (self : JSONRPCApplication) (request_id : option RequestId)
    (a2a_request : A2ARequest) (context : ServerCallContext) (evs : list Event)
    (m : RequestObject -> ServerCallContext -> Outcome UnaryResult)
    (u : UnaryResult) :
  routing_table (handler self) (request_class (root a2a_request)) = Unary m ->
  m (root a2a_request) context = Return u ->
  exists content,
    _process_non_streaming_request self request_id a2a_request context evs =
    (Return (JSONResponse content 200), evs)
    /\ match u with
       | ExplicitError e | RootModel (RootError e) =>
           content = error_body e
           /\ (exists err, dict_get "error" content = Some err)
           /\ dict_get "result" content = None
           /\ forall s k, error_id e = result_id s ->
                k <> "error" -> k <> "result" ->
                dict_get k content =
                dict_get k (model_dump true (SuccessResponse_model s))
       | RootModel (RootSuccess s) =>
           content = model_dump true (SuccessResponse_model s)
           /\ dict_get "error" content = None
           /\ dict_get "result" content =
              (if is_none (result s) then None
               else Some (model_dump true (result s)))
           /\ forall e k, error_id e = result_id s ->
                k <> "error" -> k <> "result" ->
                dict_get k (error_body e) = dict_get k content
       end.
Proof.
  intros Hroute Hcall.
  rewrite (process_non_streaming_request_route self request_id a2a_request
             context evs Hroute), Hcall.
  destruct u as [e | [e | s]]; cbn [of_unary _create_response];
    eexists; (split; [reflexivity |]).
  - split; [reflexivity |]. split; [apply error_body_has_error |].
    split; [apply error_body_keys |].
    intros s k. apply error_and_success_bodies_agree.
  - split; [reflexivity |]. split; [apply error_body_has_error |].
    split; [apply error_body_keys |].
    intros s k. apply error_and_success_bodies_agree.
  - split; [reflexivity |].
    destruct (success_body_keys s) as (Herr & _).
    split; [exact Herr |]. split; [apply success_body_result |].
    intros e k. apply error_and_success_bodies_agree.
Qed.

Lemma unary_error_and_success_same_status_witness :
  (exists content,
     _process_non_streaming_request (H := Examples.a2a_types) Examples.simple_app
       (Some (IdInt 1))
       {| root := {| id := Some (IdInt 1); request_class := GetTaskRequest;
                     params := VDict [("id", VStr "t1")] |} |}
       {| user := UnauthenticatedUser; state := [] |} [] =
     (Return (JSONResponse content 200), [])
     /\ dict_get "error" content = None
     /\ dict_get "result" content =
        Some (VDict [("id", VStr "t1"); ("contextId", VStr "c1")]))
  /\ (exists content,
        _process_non_streaming_request (H := Examples.a2a_types) Examples.simple_app
          (Some (IdInt 1))
          {| root := {| id := Some (IdInt 1); request_class := CancelTaskRequest;
                        params := VDict [("id", VStr "t1")] |} |}
          {| user := UnauthenticatedUser; state := [] |} [] =
        (Return (JSONResponse content 200), [])
        /\ dict_get "result" content = None).
Proof.
  split.
  - destruct (@unary_error_and_success_same_status Examples.a2a_types
                Examples.simple_app (Some (IdInt 1))
                {| root := {| id := Some (IdInt 1); request_class := GetTaskRequest;
                              params := VDict [("id", VStr "t1")] |} |}
                {| user := UnauthenticatedUser; state := [] |} [] _ _
                eq_refl eq_refl)
      as (content & Hrun & _ & Herr & Hres & _).
    exists content. split; [exact Hrun |]. split; [exact Herr | exact Hres].
  - destruct (@unary_error_and_success_same_status Examples.a2a_types
                Examples.simple_app (Some (IdInt 1))
                {| root := {| id := Some (IdInt 1); request_class := CancelTaskRequest;
                              params := VDict [("id", VStr "t1")] |} |}
                {| user := UnauthenticatedUser; state := [] |} [] _ _
                eq_refl eq_refl)
      as (content & Hrun & _ & _ & Hres & _).
    exists content. split; assumption.
Defined.

(** C4 as stated fails: the success of a deletion has the result [None];
    its response has status 200 and a body with [id] and [jsonrpc] only, so
    it carries no [result] entry where the error response carries its
    [error] entry. *)
Lemma success_with_none_result_has_no_result_entry :
  A2ARequest_model_validate (H := Examples.a2a_types)
    (Examples.envelope (VInt 5) "tasks/pushNotificationConfig/delete"
       (VDict [("id", VStr "t1"); ("pushNotificationConfigId", VStr "p1")])) =
  Return {| root := {| id := Some (IdInt 5);
                       request_class := DeleteTaskPushNotificationConfigRequest;
                       params := VDict [("id", VStr "t1");
                                        ("pushNotificationConfigId", VStr "p1")] |} |}
  /\ _handle_requests (H := Examples.a2a_types) Examples.deleting_app
       Examples.delete_config_request [] =
     (Return (JSONResponse (VDict [("id", VInt 5); ("jsonrpc", VStr "2.0")]) 200), [])
  /\ dict_get "result" (VDict [("id", VInt 5); ("jsonrpc", VStr "2.0")]) = None
  /\ dict_get "error" (VDict [("id", VInt 5); ("jsonrpc", VStr "2.0")]) = None.
Proof. repeat split; reflexivity. Qed.

(** ** Response mode *)

Lemma try_body_decoded `{Declarations}
    (self : JSONRPCApplication) (request : Request) (body : Value)
    (a2a_request : A2ARequest) (evs : list Event) :
  json request = Return body ->
  A2ARequest_model_validate body = Return a2a_request ->
  try_body self request evs =
  match build (_context_builder self) request with
  | Raise e => (None, Raise e, evs)
  | Return call_context =>
      let '(out, evs') :=
        (if is_streaming_request (root a2a_request)
         then _process_streaming_request self (id (root a2a_request))
                a2a_request call_context
         else _process_non_streaming_request self (id (root a2a_request))
                a2a_request call_context) evs in
      (id (root a2a_request), out, evs')
  end.
Proof. unfold try_body. intros -> ->. reflexivity. Qed.

(** Every response [_generate_error_response] gives is a [JSONResponse]. *)
Lemma except_clauses_not_stream `{Declarations}
    (request_id : option RequestId) (e : Exc) (evs evs' : list Event)
    (response : Response) :
  except_clauses request_id e evs = (Return response, evs') ->
  is_event_stream response = false.
Proof.
  destruct (reraised e) eqn:Hre.
  - rewrite (except_clauses_reraise request_id e evs Hre). discriminate.
  - destruct (except_clauses_translate request_id e evs Hre) as (r & evs'' & ->).
    intros [= <- _]. reflexivity.
Qed.

(** The default context builder never raises: a failure to read the user
    or the authentication data leaves the unauthenticated sentinel, or the
    user without the [auth] entry. *)
Lemma DefaultCallContextBuilder_build_returns (request : Request) :
  exists context,
    build DefaultCallContextBuilder request = Return context
    /\ lookup "headers" (state context) =
       Some (VDict (dict_of_mapping
                      (map (fun kv => (fst kv, VStr (snd kv))) (headers request))))
    /\ match request_user request with
       | Raise _ => user context = UnauthenticatedUser
       | Return u => user context = StarletteUserProxy u
       end.
Proof.
  cbn [build DefaultCallContextBuilder]. unfold DefaultCallContextBuilder_build.
  destruct (request_user request) as [u | e].
  - destruct (auth request) as [a | e']; eexists; split; try reflexivity;
      split; reflexivity.
  - eexists. split; [reflexivity |]. split; reflexivity.
Qed.

(** C5 (as amended).  For a successfully decoded request, when the body
    of the [try] statement completes without raising (context building and
    handler invocation included), the response is an event stream exactly
    when the decoded request is a [SendStreamingMessageRequest] or a
    [TaskResubscriptionRequest], and a single [JSONResponse] for each of
    the seven other classes.  When the context builder or the handler
    method raises, the exception leaves the [try] body and, unless it is
    raised again, the response is a [JSONResponse] with an error, for a
    streaming class as for a unary one.  So an event stream is only ever
    returned for one of the two streaming classes. *)
Theorem response_mode_by_request_class `{Declarations}
    (self : JSONRPCApplication) (request : Request) (body : Value)
    (a2a_request : A2ARequest) (evs : list Event) :
  json request = Return body ->
  A2ARequest_model_validate body = Return a2a_request ->
  (forall request_id response evs',
      try_body self request evs = (request_id, Return response, evs') ->
      _handle_requests self request evs = (Return response, evs')
      /\ is_event_stream response = is_streaming_request (root a2a_request)
      /\ (is_event_stream response = true <->
          request_class (root a2a_request) = SendStreamingMessageRequest
          \/ request_class (root a2a_request) = TaskResubscriptionRequest)
      /\ (is_streaming_request (root a2a_request) = false ->
          exists content, response = JSONResponse content 200))
  /\ (forall response evs',
        _handle_requests self request evs = (Return response, evs') ->
        is_event_stream response = true ->
        is_streaming_request (root a2a_request) = true)
  /\ (forall e,
        build (_context_builder self) request = Raise e ->
        try_body self request evs = (None, Raise e, evs))
  /\ (forall context e,
        build (_context_builder self) request = Return context ->
        match routing_table (handler self) (request_class (root a2a_request)) with
        | Unary m => m (root a2a_request) context = Raise e
        | Streaming m => m (root a2a_request) context = Raise e
        end ->
        try_body self request evs = (id (root a2a_request), Raise e, evs))
  /\ (forall request_id e evs',
        try_body self request evs = (request_id, Raise e, evs') ->
        if reraised e
        then _handle_requests self request evs = (Raise e, evs')
        else exists content evs'',
               _handle_requests self request evs =
               (Return (JSONResponse content 200), evs'')
               /\ (exists err, dict_get "error" content = Some err)
               /\ is_event_stream (JSONResponse content 200) = false).
Proof.
  intros Hjson Hval.
  assert (Hmode : forall request_id response evs',
             try_body self request evs = (request_id, Return response, evs') ->
             is_event_stream response = is_streaming_request (root a2a_request)
             /\ (is_streaming_request (root a2a_request) = false ->
                 exists content, response = JSONResponse content 200)).
  { intros request_id response evs'.
    rewrite (try_body_decoded self request evs Hjson Hval).
    destruct (build (_context_builder self) request) as [context | e];
      [| discriminate].
    pose proof (is_streaming_request_route (handler self) (root a2a_request)) as Hr.
    destruct (routing_table (handler self) (request_class (root a2a_request)))
      as [m | m] eqn:Hroute; rewrite Hr.
    - rewrite (process_non_streaming_request_route self (id (root a2a_request))
                 a2a_request context evs Hroute).
      destruct (m (root a2a_request) context) as [[e | [e | s]] | e];
        cbn; intros [= _ <- _]; (split; [reflexivity |]); intros _; eauto.
    - rewrite (process_streaming_request_route self (id (root a2a_request))
                 a2a_request context evs Hroute).
      destruct (m (root a2a_request) context) as [stream | e];
        cbn; intros [= _ <- _]; (split; [reflexivity |]); discriminate. }
  split; [| split; [| split; [| split]]].
  - intros request_id response evs' Htry.
    destruct (Hmode request_id response evs' Htry) as [Hstream Hjsonresp].
    split; [rewrite handle_requests_unfold, Htry; reflexivity |].
    split; [exact Hstream |].
    split; [| exact Hjsonresp].
    rewrite Hstream. apply is_streaming_request_classes.
  - intros response evs'. rewrite handle_requests_unfold.
    destruct (try_body self request evs) as [[request_id [response' | e]] evs0] eqn:Htry.
    + intros [= <- <-] Hstream.
      destruct (Hmode request_id response' evs0 eq_refl) as [<- _]. exact Hstream.
    + intros Hexc Hstream.
      rewrite (except_clauses_not_stream request_id e evs0 Hexc) in Hstream.
      discriminate.
  - intros e Hbuild.
    rewrite (try_body_decoded self request evs Hjson Hval), Hbuild. reflexivity.
  - intros context e Hbuild Hcall.
    rewrite (try_body_decoded self request evs Hjson Hval), Hbuild.
    pose proof (is_streaming_request_route (handler self) (root a2a_request)) as Hr.
    destruct (routing_table (handler self) (request_class (root a2a_request)))
      as [m | m] eqn:Hroute; rewrite Hr.
    + rewrite (process_non_streaming_request_route self (id (root a2a_request))
                 a2a_request context evs Hroute), Hcall. reflexivity.
    + rewrite (process_streaming_request_route self (id (root a2a_request))
                 a2a_request context evs Hroute), Hcall. reflexivity.
  - intros request_id e evs' Htry. rewrite handle_requests_unfold, Htry.
    destruct (reraised e) eqn:Hre.
    + apply except_clauses_reraise. exact Hre.
    + destruct (except_clauses_translate request_id e evs' Hre) as (r & evs'' & ->).
      exists (error_body r), evs''. split; [reflexivity |].
      split; [apply error_body_has_error | reflexivity].
Qed.

Lemma response_mode_by_request_class_witness :
  (exists response evs',
     _handle_requests (H := Examples.a2a_types) Examples.simple_app
       Examples.stream_request [] = (Return response, evs')
     /\ is_event_stream response = true)
  /\ (exists response evs',
        _handle_requests (H := Examples.a2a_types) Examples.simple_app
          Examples.get_task_request [] = (Return response, evs')
        /\ is_event_stream response = false)
  /\ (exists content evs',
        _handle_requests (H := Examples.a2a_types) Examples.app_with_failing_builder
          Examples.stream_request [] = (Return (JSONResponse content 200), evs')).
Proof.
  split; [| split].
  - destruct (@response_mode_by_request_class Examples.a2a_types
                Examples.simple_app Examples.stream_request _ _ []
                eq_refl eq_refl) as [Hret _].
    destruct (Hret _ _ _ eq_refl) as (Hrun & Hmode & _).
    eexists. eexists. split; [exact Hrun | exact Hmode].
  - destruct (@response_mode_by_request_class Examples.a2a_types
                Examples.simple_app Examples.get_task_request _ _ []
                eq_refl eq_refl) as [Hret _].
    destruct (Hret _ _ _ eq_refl) as (Hrun & Hmode & _).
    eexists. eexists. split; [exact Hrun | exact Hmode].
  - destruct (@response_mode_by_request_class Examples.a2a_types
                Examples.app_with_failing_builder Examples.stream_request _ _ []
                eq_refl eq_refl) as (_ & _ & Hbuild & _ & Hraise).
    pose proof (Hraise _ _ _ (Hbuild _ eq_refl)) as Hresp. cbn in Hresp.
    destruct Hresp as (content & evs' & Hrun & _).
    exists content, evs'. exact Hrun.
Defined.

(** C5 as stated fails: the body
    [{"jsonrpc": "2.0", "id": 2, "method": "message/stream",
      "params": {"message": {"kind": "message", "messageId": "m1",
                             "role": "user",
                             "parts": [{"kind": "text", "text": "hello"}]}}}]
    decodes to a [SendStreamingMessageRequest], and with a context builder
    that raises the response is a [JSONResponse] carrying an
    [InternalError], not an event stream. *)
Lemma stream_request_with_failing_builder_gets_json :
  json Examples.stream_request =
    Return (VDict
              [("jsonrpc", VStr "2.0"); ("id", VInt 2);
               ("method", VStr "message/stream");
               ("params",
                VDict
                  [("message",
                    VDict
                      [("kind", VStr "message"); ("messageId", VStr "m1");
                       ("role", VStr "user");
                       ("parts",
                        VList [VDict [("kind", VStr "text");
                                      ("text", VStr "hello")]])])])])
  /\ (exists a2a_request,
        A2ARequest_model_validate (H := Examples.a2a_types)
          (Examples.envelope (VInt 2) "message/stream"
             (VDict [("message", Examples.user_message)])) = Return a2a_request
        /\ id (root a2a_request) = Some (IdInt 2)
        /\ request_class (root a2a_request) = SendStreamingMessageRequest)
  /\ build (_context_builder Examples.app_with_failing_builder)
       Examples.stream_request = Raise (OtherException "RuntimeError" "no session")
  /\ fst (_handle_requests (H := Examples.a2a_types)
            Examples.app_with_failing_builder Examples.stream_request []) =
     Return (JSONResponse
               (VDict [("error", VDict [("code", VInt (-32603));
                                        ("message", VStr "no session")]);
                       ("jsonrpc", VStr "2.0")])
               200)
  /\ is_event_stream
       (JSONResponse
          (VDict [("error", VDict [("code", VInt (-32603));
                                   ("message", VStr "no session")]);
                  ("jsonrpc", VStr "2.0")])
          200) = false.
Proof.
  split; [reflexivity |]. split; [eexists; repeat split; reflexivity |].
  repeat split; reflexivity.
Qed.

(** ** Log severity *)

Lemma request_error_levels_app (evs evs' : list Event) :
  request_error_levels (evs ++ evs') =
  (request_error_levels evs ++ request_error_levels evs')%list.
Proof.
  induction evs as [| [level [rid c m d | s] | e] rest IH]; simpl;
    try rewrite IH; reflexivity.
Qed.

(** The level [_generate_error_response] logs at. *)
Lemma generate_error_response_level `{Declarations}
    (request_id : option RequestId) (err : ErrorArg) (evs : list Event) :
  request_error_levels (snd (_generate_error_response request_id err evs)) =
  (request_error_levels evs ++
   [if negb (isinstance_A2AError err) || root_isinstance_InternalError err
    then ERROR else WARNING])%list.
Proof.
  destruct (generate_error_response_events request_id err evs) as (msg & -> & ->).
  rewrite request_error_levels_app. reflexivity.
Qed.

(** C6 (as amended).  An error response is logged at ERROR only when its
    error is an [InternalError] (any failure left to the last [except]
    clause) or is not wrapped in an [A2AError]; the responses for a
    structural parse failure, a schema validation failure, an operation that
    is not implemented and an oversized body are logged at WARNING. *)
Theorem error_response_log_levels `{Declarations}
    (request_id : option RequestId) (evs : list Event) :
  (forall m,
      request_error_levels (snd (except_clauses request_id (JSONDecodeError m) evs))
      = (request_error_levels evs ++ [WARNING])%list)
  /\ (forall errors m,
        request_error_levels
          (snd (except_clauses request_id (ValidationError errors m) evs))
        = (request_error_levels evs ++ [WARNING])%list)
  /\ (forall m,
        request_error_levels
          (snd (except_clauses request_id (MethodNotImplementedError m) evs))
        = (request_error_levels evs ++ [WARNING])%list)
  /\ (forall detail,
        request_error_levels
          (snd (except_clauses request_id (HTTPException 413 detail) evs))
        = (request_error_levels evs ++ [WARNING])%list)
  /\ (forall m,
        request_error_levels (snd (except_clauses request_id (AttributeError m) evs))
        = (request_error_levels evs ++ [ERROR])%list)
  /\ (forall c m,
        request_error_levels (snd (except_clauses request_id (OtherException c m) evs))
        = (request_error_levels evs ++ [ERROR])%list)
  /\ (forall err,
        request_error_levels (snd (_generate_error_response request_id err evs))
        = (request_error_levels evs ++
           [match err with
            | PlainJSONRPCError _ => ERROR
            | A2AError r =>
                match error_class r with
                | CInternalError => ERROR
                | _ => WARNING
                end
            end])%list).
Proof.
  repeat split; intros;
    try (unfold except_clauses, bind, traceback_print_exc, logger_error,
           logger_log, emit; cbn -[_generate_error_response];
         rewrite generate_error_response_level, ?request_error_levels_app;
         cbn; rewrite ?app_nil_r; reflexivity).
  rewrite generate_error_response_level.
  destruct err as [e | [[] c m d]]; reflexivity.
Qed.

(** C6 as stated fails: the error response for a malformed body (a
    structural parse failure) is logged once, at WARNING. *)
Lemma parse_error_logged_at_warning :
  snd (_handle_requests (H := Examples.a2a_types) Examples.simple_app
         Examples.truncated_request []) =
  [PrintExc (JSONDecodeError
     "Expecting property name enclosed in double quotes: line 1 column 2 (char 1)");
   Log WARNING
     (RequestErrorMessage None (-32700)
        "Expecting property name enclosed in double quotes: line 1 column 2 (char 1)"
        None)]
  /\ request_error_levels
       (snd (_handle_requests (H := Examples.a2a_types) Examples.simple_app
               Examples.truncated_request [])) = [WARNING].
Proof. split; reflexivity. Qed.

(** ** Streaming *)

Lemma event_generator_items (stream : AsyncGenerator ResponseRoot) :
  items (event_generator stream) = map event_of (items stream).
Proof.
  induction stream as [| e | item rest IH]; simpl; [reflexivity | reflexivity |].
  rewrite IH. reflexivity.
Qed.

Lemma event_generator_ending (stream : AsyncGenerator ResponseRoot) :
  ending (event_generator stream) = ending stream.
Proof.
  induction stream as [| e | item rest IH]; simpl; auto.
Qed.

Lemma event_generator_generator_of (xs : list ResponseRoot) (e : option Exc) :
  event_generator (generator_of xs e) = generator_of (map event_of xs) e.
Proof.
  induction xs as [| x rest IH]; simpl.
  - destruct e; reflexivity.
  - rewrite IH. reflexivity.
Qed.

Lemma items_generator_of {A : Type} (xs : list A) (e : option Exc) :
  items (generator_of xs e) = xs.
Proof.
  induction xs as [| x rest IH]; simpl.
  - destruct e; reflexivity.
  - rewrite IH. reflexivity.
Qed.

(** C9.  A streaming outcome is rendered as an [EventSourceResponse] whose
    events are the serialisations of the stream's items, one event per item
    and in the same order: the events of the response are the map of the
    per-item serialisation over the items, the response stream ends the way
    the handler's stream ends, and the k-th event is the serialisation of
    the k-th item. *)
Theorem stream_frames_in_order
    (stream : AsyncGenerator ResponseRoot) (evs : list Event) :
  exists events,
    _create_response (HAsyncGenerator stream) evs =
    (Return (EventSourceResponse events), evs)
    /\ items events = map event_of (items stream)
    /\ ending events = ending stream
    /\ List.length (items events) = List.length (items stream)
    /\ (forall k, nth_error (items events) k =
                  option_map event_of (nth_error (items stream) k))
    /\ (forall xs e, stream = generator_of xs e ->
                     events = generator_of (map event_of xs) e).
Proof.
  exists (event_generator stream).
  split; [reflexivity |].
  split; [apply event_generator_items |].
  split; [apply event_generator_ending |].
  split; [rewrite event_generator_items; apply List.length_map |].
  split.
  - intros k. rewrite event_generator_items. apply nth_error_map.
  - intros xs e ->. apply event_generator_generator_of.
Qed.

(** ** Omission of [None]-valued fields *)

Lemma omits_none_fields_dump (model : Value) :
  omits_none_fields model (model_dump true model).
Proof.
  split; [apply model_dump_exclude_none | apply drop_none_fields_clean].
Qed.

(** C10.  Every body the pipeline emits is a dump that omits the
    [None]-valued fields of its model: the body of every error response
    built by [_generate_error_response], the body rendered for an explicit
    error or a root model returned by a handler, and the text of every
    event of a stream.  In particular the body of an error response whose
    id is [None] has no [id] entry. *)
Theorem responses_omit_none_fields `{Declarations} (evs : list Event) :
  (forall request_id err,
      exists content,
        fst (_generate_error_response request_id err evs) =
        Return (JSONResponse content 200)
        /\ omits_none_fields
             (JSONRPCErrorResponse_model (error_response_of request_id err)) content)
  /\ (forall e,
        exists content,
          fst (_create_response (HJSONRPCErrorResponse e) evs) =
          Return (JSONResponse content 200)
          /\ omits_none_fields (JSONRPCErrorResponse_model e) content)
  /\ (forall r,
        exists content,
          fst (_create_response (HRootModel r) evs) =
          Return (JSONResponse content 200)
          /\ omits_none_fields (ResponseRoot_model r) content)
  /\ (forall stream,
        exists events,
          fst (_create_response (HAsyncGenerator stream) evs) =
          Return (EventSourceResponse events)
          /\ Forall2
               (fun item event =>
                  exists content,
                    event = [("data", json_text content)]
                    /\ omits_none_fields (ResponseRoot_model item) content)
               (items stream) (items events))
  /\ (forall err,
        exists content,
          fst (_generate_error_response None err evs) =
          Return (JSONResponse content 200)
          /\ dict_get "id" content = None
          /\ forall k y, dict_get k content = Some y -> y <> VNone).
Proof.
  split; [| split; [| split; [| split]]].
  - intros request_id err. eexists. split; [reflexivity |].
    apply omits_none_fields_dump.
  - intros e. eexists. split; [reflexivity |]. apply omits_none_fields_dump.
  - intros r. eexists. split; [reflexivity |]. apply omits_none_fields_dump.
  - intros stream. exists (event_generator stream). split; [reflexivity |].
    induction stream as [| e | item rest IH]; simpl; constructor; [| exact IH].
    eexists. split; [reflexivity |]. apply omits_none_fields_dump.
  - intros err. eexists. split; [reflexivity |].
    split; [apply (error_body_keys (error_response_of None err)) |].
    intros k y. unfold error_body, JSONRPCErrorResponse_model.
    rewrite model_dump_model. cbn [dict_get].
    intros Hy. apply lookup_dump_fields_inv in Hy as (x & Hin & Hx & ->).
    cbn [In] in Hin.
    destruct Hin as [[= <- <-] | [[= <- <-] | [[= <- <-] | []]]];
      try contradiction; discriminate.
Qed.

(** ** Scenarios *)

(** A valid [tasks/get] whose handler finds the task. *)
Example scenario_valid_unary :
  _handle_requests (H := Examples.a2a_types) Examples.simple_app
    Examples.get_task_request [] =
  (Return (JSONResponse
             (VDict [("id", VInt 1); ("jsonrpc", VStr "2.0");
                     ("result", VDict [("id", VStr "t1"); ("contextId", VStr "c1")])])
             200),
   []).
Proof. reflexivity. Qed.

(** A [message/stream] whose handler yields three items: three events, in
    order, then the stream ends. *)
Example scenario_streaming :
  fst (_handle_requests (H := Examples.a2a_types) Examples.simple_app
         Examples.stream_request []) =
  Return (EventSourceResponse
            (generator_of
               (map event_of
                  [RootSuccess {| result_id := Some (IdInt 2);
                                  result := VModel [("n", VInt 1)] |};
                   RootSuccess {| result_id := Some (IdInt 2);
                                  result := VModel [("n", VInt 2)] |};
                   RootSuccess {| result_id := Some (IdInt 2);
                                  result := VModel [("n", VInt 3)] |}])
               None)).
Proof. reflexivity. Qed.

(** Without authentication middleware the default builder gives the
    unauthenticated user and the headers only. *)
Example scenario_default_context :
  build DefaultCallContextBuilder Examples.get_task_request =
  Return {| user := UnauthenticatedUser;
            state := [("headers",
                       VDict [("content-type", VStr "application/json")])] |}.
Proof. reflexivity. Qed.

(** A handler that raises a transport exception other than 413: it is
    raised again. *)
Example scenario_other_transport_fault :
  except_clauses (H := Examples.a2a_types) (Some (IdInt 1))
    (HTTPException 404 "Not Found") [] =
  (Raise (HTTPException 404 "Not Found"), []).
Proof. reflexivity. Qed.

(** * Further properties of the module *)

Import AgentCardEndpoints Dispatch.

(** ** Dictionaries *)

Lemma lookup_dict_set_same {A : Type} (k : string) (v : A) (kvs : list (string * A)) :
  lookup k (dict_set k v kvs) = Some v.
Proof.
  induction kvs as [| [k' v'] rest IH]; simpl.
  - rewrite String.eqb_refl. reflexivity.
  - destruct (String.eqb k k') eqn:Hk; simpl.
    + rewrite String.eqb_refl. reflexivity.
    + rewrite Hk. exact IH.
Qed.

Lemma lookup_dict_set_other {A : Type}
    (k k' : string) (v : A) (kvs : list (string * A)) :
  k' <> k -> lookup k' (dict_set k v kvs) = lookup k' kvs.
Proof.
  intros Hne. apply String.eqb_neq in Hne.
  induction kvs as [| [k0 v0] rest IH]; simpl.
  - rewrite Hne. reflexivity.
  - destruct (String.eqb k k0) eqn:Hk; simpl.
    + apply String.eqb_eq in Hk. subst k0. rewrite Hne. reflexivity.
    + destruct (String.eqb k' k0); [reflexivity | exact IH].
Qed.

Lemma lookup_app {A : Type} (k : string) (l1 l2 : list (string * A)) :
  lookup k (l1 ++ l2)%list =
  match lookup k l1 with
  | Some v => Some v
  | None => lookup k l2
  end.
Proof.
  induction l1 as [| [k' v'] rest IH]; simpl; [reflexivity |].
  destruct (String.eqb k k'); [reflexivity | exact IH].
Qed.

Lemma lookup_not_In {A : Type} (k : string) (l : list (string * A)) :
  ~ In k (map fst l) -> lookup k l = None.
Proof.
  induction l as [| [k' v'] rest IH]; simpl; [reflexivity |].
  intros Hnotin. destruct (String.eqb k k') eqn:Hk.
  - apply String.eqb_eq in Hk. subst k'. exfalso. auto.
  - auto.
Qed.

Lemma lookup_dict_set_inv {A : Type}
    (k k' : string) (v v' : A) (kvs : list (string * A)) :
  lookup k' (dict_set k v kvs) = Some v' -> k' = k \/ lookup k' kvs = Some v'.
Proof.
  destruct (String.eqb k' k) eqn:Hk.
  - apply String.eqb_eq in Hk. auto.
  - apply String.eqb_neq in Hk. rewrite (lookup_dict_set_other v kvs Hk). auto.
Qed.

Lemma lookup_fold_mapping {A : Type}
    (items : list (string * A)) (k : string) (ks : list string)
    (acc : list (string * A)) :
  (forall k', In k' ks -> lookup k' items <> None) ->
  lookup k (fold_left (fun d k' => match lookup k' items with
                                   | Some v => dict_set k' v d
                                   | None => d
                                   end) ks acc) =
  if existsb (String.eqb k) ks then lookup k items else lookup k acc.
Proof.
  revert acc. induction ks as [| k0 rest IH]; intros acc Hdom; simpl;
    [reflexivity |].
  rewrite IH by (intros k' Hin; apply Hdom; right; exact Hin).
  destruct (existsb (String.eqb k) rest); [rewrite orb_true_r; reflexivity |].
  rewrite orb_false_r.
  destruct (lookup k0 items) as [v |] eqn:Hk0;
    [| exfalso; apply (Hdom k0); [left; reflexivity | exact Hk0]].
  destruct (String.eqb k k0) eqn:Hk.
  - apply String.eqb_eq in Hk. subst k0. rewrite Hk0. apply lookup_dict_set_same.
  - apply lookup_dict_set_other. apply String.eqb_neq. exact Hk.
Qed.

Lemma lookup_In_fst {A : Type} (k : string) (l : list (string * A)) :
  In k (map fst l) -> lookup k l <> None.
Proof.
  induction l as [| [k' v'] rest IH]; simpl; [contradiction |].
  intros [-> | Hin].
  - rewrite String.eqb_refl. discriminate.
  - destruct (String.eqb k k'); [discriminate | auto].
Qed.

(** [dict(m)] gives each key the value [m[k]], that of its first item. *)
Lemma lookup_dict_of_mapping {A : Type} (k : string) (items : list (string * A)) :
  lookup k (dict_of_mapping items) = lookup k items.
Proof.
  unfold dict_of_mapping.
  rewrite lookup_fold_mapping by (intros k'; apply lookup_In_fst).
  destruct (existsb (String.eqb k) (map fst items)) eqn:Hex; [reflexivity |].
  simpl. symmetry. apply lookup_not_In. intros Hin.
  assert (Htrue : existsb (String.eqb k) (map fst items) = true).
  { apply existsb_exists. exists k. split; [exact Hin | apply String.eqb_refl]. }
  congruence.
Qed.

Lemma lookup_map_value {A B : Type} (f : A -> B) (k : string) (l : list (string * A)) :
  lookup k (map (fun kv => (fst kv, f (snd kv))) l) = option_map f (lookup k l).
Proof.
  induction l as [| [k' v'] rest IH]; simpl; [reflexivity |].
  destruct (String.eqb k k'); [reflexivity | exact IH].
Qed.

(** ** The default context builder *)

(** X1.  [DefaultCallContextBuilder.build] never raises, and degrades on
    failure: when [request.user] raises, the context carries the
    unauthenticated user (not authenticated, empty name) and no [auth]
    entry, and [request.auth] is not consulted; when [request.user]
    succeeds and [request.auth] raises, the user is kept and there is no
    [auth] entry; when both succeed the context has the proxied user and
    [request.auth] under [auth].  An authenticated context user always
    comes from an authenticated Starlette user, under its display name. *)
Theorem default_builder_degrades_identity (request : Request) :
  exists context,
    build DefaultCallContextBuilder request = Return context
    /\ match request_user request, auth request with
       | Return u, Return a =>
           user context = StarletteUserProxy u
           /\ lookup "auth" (state context) = Some a
       | Return u, Raise _ =>
           user context = StarletteUserProxy u
           /\ lookup "auth" (state context) = None
       | Raise _, _ =>
           user context = UnauthenticatedUser
           /\ lookup "auth" (state context) = None
           /\ user_is_authenticated (user context) = false
           /\ user_name (user context) = EmptyString
       end
    /\ match request_user request with
       | Return u =>
           user_is_authenticated (user context) = is_authenticated u
           /\ user_name (user context) = display_name u
       | Raise _ => user_is_authenticated (user context) = false
       end.
Proof.
  cbn [build DefaultCallContextBuilder]. unfold DefaultCallContextBuilder_build.
  destruct (request_user request) as [u | e].
  - destruct (auth request) as [a | e']; eexists; (split; [reflexivity |]);
      cbn; repeat split; reflexivity.
  - eexists. split; [reflexivity |]. cbn. repeat split; reflexivity.
Qed.

(** X2.  The context of the default builder always has a [headers] entry:
    a dict that holds each header name of the request with the value of its
    first item, as [dict(request.headers)] gives it, and no other name.  The
    state has no entry besides [auth] and [headers]. *)
Theorem default_builder_headers_snapshot (request : Request) :
  exists context d,
    build DefaultCallContextBuilder request = Return context
    /\ lookup "headers" (state context) = Some (VDict d)
    /\ (forall name,
           lookup name d = option_map VStr (lookup name (headers request)))
    /\ (forall name value rest_before rest_after,
           headers request = (rest_before ++ (name, value) :: rest_after)%list ->
           ~ In name (map fst rest_before) ->
           lookup name d = Some (VStr value))
    /\ (forall name,
           ~ In name (map fst (headers request)) -> lookup name d = None)
    /\ (forall k v,
           lookup k (state context) = Some v -> k = "auth" \/ k = "headers").
Proof.
  set (pairs := map (fun kv : string * string => (fst kv, VStr (snd kv)))
                  (headers request)).
  assert (Hd : forall name,
             lookup name (dict_of_mapping pairs)
             = option_map VStr (lookup name (headers request))).
  { intros name. rewrite lookup_dict_of_mapping. apply lookup_map_value. }
  assert (Hfirst : forall name value rest_before rest_after,
             headers request = (rest_before ++ (name, value) :: rest_after)%list ->
             ~ In name (map fst rest_before) ->
             lookup name (dict_of_mapping pairs) = Some (VStr value)).
  { intros name value rest_before rest_after Heq Hnotin.
    rewrite Hd, Heq, lookup_app, (lookup_not_In _ _ Hnotin). simpl.
    rewrite String.eqb_refl. reflexivity. }
  assert (Hnone : forall name,
             ~ In name (map fst (headers request)) ->
             lookup name (dict_of_mapping pairs) = None).
  { intros name Hnotin. rewrite Hd, (lookup_not_In _ _ Hnotin). reflexivity. }
  cbn [build DefaultCallContextBuilder]. unfold DefaultCallContextBuilder_build.
  fold pairs.
  destruct (request_user request) as [u | e];
    [destruct (auth request) as [a | e'] |];
    eexists; exists (dict_of_mapping pairs);
    (split; [reflexivity |]); cbn [state];
    (split; [apply lookup_dict_set_same |]); (split; [exact Hd |]);
    (split; [exact Hfirst |]); (split; [exact Hnone |]);
    intros k v Hl;
    apply lookup_dict_set_inv in Hl as [-> | Hl]; auto;
    try (apply lookup_dict_set_inv in Hl as [-> | Hl]; auto);
    discriminate.
Qed.

(** With authentication middleware the context has the proxied user, the
    authentication data and the headers. *)
Example scenario_signed_in_context :
  build DefaultCallContextBuilder MoreExamples.signed_in_request =
  Return {| user := StarletteUserProxy
                      {| is_authenticated := true; display_name := "ada" |};
            state := [("auth", VList [VStr "read"]);
                      ("headers",
                       VDict [("content-type", VStr "application/json");
                              ("x-trace", VStr "abc")])] |}.
Proof. reflexivity. Qed.

(** A header sent twice is kept with its first value. *)
Example scenario_repeated_header :
  build DefaultCallContextBuilder MoreExamples.repeated_header_request =
  Return {| user := UnauthenticatedUser;
            state := [("headers",
                       VDict [("accept", VStr "application/json");
                              ("x-trace", VStr "first")])] |}.
Proof. reflexivity. Qed.

(** ** The pipeline as dispatch followed by rendering *)

Lemma try_body_routed `{Declarations}
    (self : JSONRPCApplication) (request : Request) (body : Value)
    (a2a_request : A2ARequest) (context : ServerCallContext) (evs : list Event) :
  json request = Return body ->
  A2ARequest_model_validate body = Return a2a_request ->
  build (_context_builder self) request = Return context ->
  try_body self request evs =
  (id (root a2a_request),
   routed_outcome (handler self) (root a2a_request) context,
   evs).
Proof.
  intros Hjson Hval Hbuild.
  rewrite (try_body_decoded self request evs Hjson Hval), Hbuild.
  unfold routed_outcome.
  pose proof (is_streaming_request_route (handler self) (root a2a_request)) as Hr.
  destruct (routing_table (handler self) (request_class (root a2a_request)))
    as [m | m] eqn:Hroute; rewrite Hr.
  - rewrite (process_non_streaming_request_route self (id (root a2a_request))
               a2a_request context evs Hroute).
    destruct (m (root a2a_request) context) as [[e | r] | e]; reflexivity.
  - rewrite (process_streaming_request_route self (id (root a2a_request))
               a2a_request context evs Hroute).
    destruct (m (root a2a_request) context) as [stream | e]; reflexivity.
Qed.

(** The body of the [try] statement adds no event, whatever happens. *)
Lemma try_body_events `{Declarations}
    (self : JSONRPCApplication) (request : Request) (evs : list Event) :
  snd (try_body self request evs) = evs.
Proof.
  destruct (json request) as [body | e] eqn:Hjson;
    [| rewrite (try_body_json_raises self request evs Hjson); reflexivity].
  destruct (A2ARequest_model_validate body) as [a2a_request | e] eqn:Hval;
    [| rewrite (try_body_validation_fails self request evs Hjson Hval); reflexivity].
  destruct (build (_context_builder self) request) as [context | e] eqn:Hbuild.
  - rewrite (try_body_routed self request evs Hjson Hval Hbuild). reflexivity.
  - rewrite (try_body_decoded self request evs Hjson Hval), Hbuild. reflexivity.
Qed.

(** X3.  For a request whose body decodes and whose context is built,
    [_handle_requests] is the routed handler method followed by rendering:
    when the method returns, the response is its rendering (a
    [JSONResponse] of status 200 for a unary class, an event stream for a
    streaming class) and no event is logged; when it raises, the [except]
    clauses run with the decoded request id. *)
Theorem handle_requests_routes_and_renders `{Declarations}
    (self : JSONRPCApplication) (request : Request) (body : Value)
    (a2a_request : A2ARequest) (context : ServerCallContext) (evs : list Event) :
  json request = Return body ->
  A2ARequest_model_validate body = Return a2a_request ->
  build (_context_builder self) request = Return context ->
  _handle_requests self request evs =
  match routed_outcome (handler self) (root a2a_request) context with
  | Return response => (Return response, evs)
  | Raise e => except_clauses (id (root a2a_request)) e evs
  end.
Proof.
  intros Hjson Hval Hbuild.
  rewrite handle_requests_unfold,
    (try_body_routed self request evs Hjson Hval Hbuild).
  destruct (routed_outcome (handler self) (root a2a_request) context);
    reflexivity.
Qed.

Lemma handle_requests_routes_and_renders_witness :
  _handle_requests (H := Examples.a2a_types) Examples.simple_app
    Examples.get_task_request [] =
  (Return (JSONResponse
             (unary_body (Examples.found (root MoreExamples.get_task_object)))
             200),
   []).
Proof.
  exact (@handle_requests_routes_and_renders Examples.a2a_types
           Examples.simple_app Examples.get_task_request _
           MoreExamples.get_task_object
           {| user := UnauthenticatedUser;
              state := [("headers",
                         VDict [("content-type", VStr "application/json")])] |}
           [] eq_refl eq_refl eq_refl).
Defined.

(** X4.  Only the routed handler method is consulted: two applications
    with the same context builder whose handlers give the same method for
    the class of the decoded request answer a request in the same way,
    however their other eight methods differ. *)
Theorem handle_requests_uses_routed_method_only `{Declarations}
    (self1 self2 : JSONRPCApplication) (request : Request) (body : Value)
    (a2a_request : A2ARequest) (evs : list Event) :
  json request = Return body ->
  A2ARequest_model_validate body = Return a2a_request ->
  _context_builder self1 = _context_builder self2 ->
  routing_table (handler self1) (request_class (root a2a_request)) =
  routing_table (handler self2) (request_class (root a2a_request)) ->
  _handle_requests self1 request evs = _handle_requests self2 request evs.
Proof.
  intros Hjson Hval Hbuilder Hroute.
  rewrite !handle_requests_unfold.
  destruct (build (_context_builder self1) request) as [context | e] eqn:Hbuild.
  - rewrite (try_body_routed self1 request evs Hjson Hval Hbuild).
    rewrite Hbuilder in Hbuild.
    rewrite (try_body_routed self2 request evs Hjson Hval Hbuild).
    unfold routed_outcome. rewrite Hroute. reflexivity.
  - rewrite !(try_body_decoded _ request evs Hjson Hval).
    rewrite <- Hbuilder, Hbuild. reflexivity.
Qed.

Lemma handle_requests_uses_routed_method_only_witness :
  _handle_requests (H := Examples.a2a_types) Examples.simple_app
    Examples.stream_request [] =
  _handle_requests (H := Examples.a2a_types) MoreExamples.partial_app
    Examples.stream_request [].
Proof.
  exact (@handle_requests_uses_routed_method_only Examples.a2a_types
           Examples.simple_app MoreExamples.partial_app Examples.stream_request
           _ MoreExamples.stream_object [] eq_refl eq_refl eq_refl eq_refl).
Defined.



(** ** What the error translator leaves in the log and in the body *)

Lemma except_clauses_events `{Declarations}
    (request_id : option RequestId) (e : Exc) (evs : list Event) :
  exists new,
    snd (except_clauses request_id e evs) = (evs ++ new)%list
    /\ (if reraised e then new = []
        else exists level, request_error_levels new = [level])
    /\ (In (PrintExc e) new <-> is_HTTPException e = false).
Proof.
  assert (Hhttp : forall status_code detail,
             exists new,
               snd (except_clauses request_id (HTTPException status_code detail) evs)
               = (evs ++ new)%list
               /\ (if reraised (HTTPException status_code detail) then new = []
                   else exists level, request_error_levels new = [level])
               /\ ~ In (PrintExc (HTTPException status_code detail)) new).
  { intros status_code detail. unfold except_clauses, reraised.
    destruct (status_code =? HTTP_413_REQUEST_ENTITY_TOO_LARGE); cbn [negb].
    - eexists. split; [reflexivity |]. split; [eexists; reflexivity |].
      intros [Hin | []]. discriminate Hin.
    - exists []. split; [cbn; rewrite app_nil_r; reflexivity |].
      split; [reflexivity | intros []]. }
  destruct e;
    try (destruct (Hhttp status_code detail) as (new & Hnew & Hrec & Htb);
         exists new; split; [exact Hnew |]; split; [exact Hrec |];
         split; [intros Hin; contradiction | discriminate]);
    unfold except_clauses, bind, traceback_print_exc, logger_error, logger_log,
      emit, _generate_error_response, bind, logger_log, emit, ret;
    cbn [fst snd reraised]; rewrite <- ?app_assoc; cbn [app];
    eexists; (split; [reflexivity |]);
    (split; [eexists; reflexivity |]);
    (split; [reflexivity |]); intros _; cbn; auto.
Qed.

(** X6.  [_handle_requests] only ever appends to the log.  A request
    answered without an exception leaves no event; an exception that is
    raised again leaves none either; an exception that is translated leaves
    exactly one [Request Error] record, and its traceback is printed unless
    it is an [HTTPException]. *)
Theorem handle_requests_log_discipline `{Declarations}
    (self : JSONRPCApplication) (request : Request) (evs : list Event) :
  exists new,
    snd (_handle_requests self request evs) = (evs ++ new)%list
    /\ match snd (fst (try_body self request evs)) with
       | Return _ => new = []
       | Raise e =>
           (if reraised e then new = []
            else exists level, request_error_levels new = [level])
           /\ (In (PrintExc e) new <-> is_HTTPException e = false)
       end.
Proof.
  rewrite handle_requests_unfold.
  pose proof (try_body_events self request evs) as Hev.
  destruct (try_body self request evs) as [[request_id [response | e]] evs0];
    cbn in Hev; subst evs0; cbn [fst snd].
  - exists []. rewrite app_nil_r. split; reflexivity.
  - destruct (except_clauses_events request_id e evs) as (new & Hnew & Hrec & Htb).
    exists new. split; [exact Hnew | split; assumption].
Qed.

Lemma except_clauses_error_id `{Declarations}
    (request_id : option RequestId) (e : Exc) (evs : list Event) :
  reraised e = false ->
  exists r evs',
    except_clauses request_id e evs = (Return (JSONResponse (error_body r) 200), evs')
    /\ error_id r = error_response_id request_id e.
Proof.
  destruct e; unfold except_clauses, reraised;
    try (destruct (status_code =? HTTP_413_REQUEST_ENTITY_TOO_LARGE);
         cbn [negb]; [| discriminate]);
    intros _; eexists; eexists; split; reflexivity.
Qed.

Lemma error_body_id (r : JSONRPCErrorResponse) :
  dict_get "id" (error_body r) = id_entry (error_id r).
Proof. apply error_body_keys. Qed.

(** X7.  When the routed handler method of a decoded request raises an
    exception that is translated, the error response carries the id of the
    decoded request: the body has its [id] entry when the request had an
    id.  The one exception is a [JSONDecodeError] raised by the handler,
    which is answered as a parse error without an id although the id is
    known. *)
Theorem handler_failure_echoes_request_id `{Declarations}
    (self : JSONRPCApplication) (request : Request) (body : Value)
    (a2a_request : A2ARequest) (context : ServerCallContext) (evs : list Event)
    (e : Exc) :
  json request = Return body ->
  A2ARequest_model_validate body = Return a2a_request ->
  build (_context_builder self) request = Return context ->
  routed_outcome (handler self) (root a2a_request) context = Raise e ->
  reraised e = false ->
  exists content evs',
    _handle_requests self request evs = (Return (JSONResponse content 200), evs')
    /\ dict_get "id" content =
       match e with
       | JSONDecodeError _ => None
       | _ => id_entry (id (root a2a_request))
       end.
Proof.
  intros Hjson Hval Hbuild Hraise Hre.
  rewrite handle_requests_unfold,
    (try_body_routed self request evs Hjson Hval Hbuild), Hraise.
  destruct (except_clauses_error_id (id (root a2a_request)) e evs Hre)
    as (r & evs' & -> & Hid).
  exists (error_body r), evs'. split; [reflexivity |].
  rewrite error_body_id, Hid. destruct e; reflexivity.
Qed.

Lemma handler_failure_echoes_request_id_witness :
  exists content evs',
    _handle_requests (H := Examples.a2a_types) MoreExamples.partial_app
      MoreExamples.cancel_task_request [] =
    (Return (JSONResponse content 200), evs')
    /\ dict_get "id" content = Some (VStr "c-9").
Proof.
  destruct (@handler_failure_echoes_request_id Examples.a2a_types
              MoreExamples.partial_app MoreExamples.cancel_task_request _ _ _ []
              (OtherException "RuntimeError" "store offline")
              eq_refl eq_refl eq_refl eq_refl eq_refl)
    as (content & evs' & Hrun & Hid).
  exists content, evs'. split; [exact Hrun | exact Hid].
Defined.

(** X8.  The two failures the [except] clauses map to an error of their
    own: a [MethodNotImplementedError] is answered with the code and the
    default message of [UnsupportedOperationError] and without data; any
    exception no earlier clause takes is answered with the code of
    [InternalError] and [str(e)] as the message, and is logged twice at
    ERROR, once as [Unhandled exception] and once as the request error.
    Both carry the current request id and status 200. *)
Theorem unsupported_and_internal_error_responses `{Declarations}
    (request_id : option RequestId) (evs : list Event) :
  (forall m,
      exists content evs',
        except_clauses request_id (MethodNotImplementedError m) evs =
        (Return (JSONResponse content 200), evs')
        /\ error_code content = Some (VInt UnsupportedOperationError_code)
        /\ error_message content = Some (VStr UnsupportedOperationError_message)
        /\ dict_get "id" content = id_entry request_id
        /\ error_texts evs' = error_texts evs)
  /\ (forall e,
        match e with
        | AttributeError _ | OtherException _ _ =>
            exists content evs',
              except_clauses request_id e evs =
              (Return (JSONResponse content 200), evs')
              /\ error_code content = Some (VInt InternalError_code)
              /\ error_message content = Some (VStr (exc_str e))
              /\ dict_get "id" content = id_entry request_id
              /\ evs' = (evs ++ [Log ERROR (Text ("Unhandled exception: " ++ exc_str e));
                                 PrintExc e;
                                 Log ERROR
                                   (RequestErrorMessage request_id InternalError_code
                                      (exc_str e) None)])%list
        | _ => True
        end).
Proof.
  split.
  - intros m. eexists. eexists. split; [reflexivity |].
    pose proof (error_body_keys
                  {| error_id := request_id;
                     error := UnsupportedOperationError None |})
      as (Hcode & Hmsg & _ & _ & Hid).
    split; [exact Hcode |]. split; [exact Hmsg |]. split; [exact Hid |].
    assert (Happ : forall a b, error_texts (a ++ b) = (error_texts a ++ error_texts b)%list).
    { intros a b. induction a as [| [[] [rid c m0 d | s] | e0] rest IH]; cbn;
        try rewrite IH; reflexivity. }
    rewrite !Happ. cbn. rewrite !app_nil_r. reflexivity.
  - intros e.
    destruct e; try exact I;
      (eexists; eexists; split; [reflexivity |];
       match goal with
       | |- error_code (error_body ?r) = _ /\ _ =>
           pose proof (error_body_keys r) as (Hcode & Hmsg & _ & _ & Hid)
       end;
       split; [exact Hcode |]; split; [exact Hmsg |]; split; [exact Hid |];
       rewrite <- !app_assoc; reflexivity).
Qed.

(** X9.  [_generate_error_response] never raises and treats the data of
    the error differently in the body and in the log: the body has a [data]
    entry exactly when the data is not [None], while the log record shows
    the data only when it is truthy.  So a log record that shows data
    implies a body with data, and falsy data other than [None] (an empty
    list, 0, an empty string) is in the body but not in the log. *)
Theorem error_data_in_body_and_log `{Declarations}
    (request_id : option RequestId) (err : ErrorArg) (evs : list Event) :
  exists content level shown,
    _generate_error_response request_id err evs =
    (Return (JSONResponse content 200),
     (evs ++ [Log level
                (RequestErrorMessage request_id
                   (code (error (error_response_of request_id err)))
                   (message (error (error_response_of request_id err)))
                   shown)])%list)
    /\ (match dict_get "error" content with
        | Some e => dict_get "data" e
        | None => None
        end =
        if is_none (data (error (error_response_of request_id err)))
        then None
        else Some (model_dump true (data (error (error_response_of request_id err)))))
    /\ shown = (if truthy (data (error (error_response_of request_id err)))
                then Some (data (error (error_response_of request_id err)))
                else None)
    /\ (shown <> None ->
        is_none (data (error (error_response_of request_id err))) = false).
Proof.
  eexists. eexists. eexists. split; [reflexivity |].
  set (r := error_response_of request_id err).
  split; [| split; [reflexivity |]].
  - destruct r as [rid [cls c m d]]. unfold error_body, JSONRPCErrorResponse_model,
      ErrorObject_model. cbn [error error_id code message data].
    rewrite model_dump_model. cbn -[model_dump]. rewrite model_dump_model.
    cbn -[model_dump]. destruct (is_none d); reflexivity.
  - destruct (data (error r)); cbn; try reflexivity; intros Hs; congruence.
Qed.

(** ** The fallback branches of the dispatch functions *)

(** X10.  Called on a request of one of the two streaming classes,
    [_process_non_streaming_request] calls no handler method: it logs one
    ERROR record naming the class and answers, with status 200, an
    [UnsupportedOperationError] that carries the request id it was given and
    the message [Request type <class> is unknown.]. *)
Theorem process_non_streaming_request_fallback `{Declarations}
    (self : JSONRPCApplication) (request_id : option RequestId)
    (a2a_request : A2ARequest) (context : ServerCallContext) (evs : list Event) :
  is_streaming_request (root a2a_request) = true ->
  exists content,
    _process_non_streaming_request self request_id a2a_request context evs =
    (Return (JSONResponse content 200),
     (evs ++ [Log ERROR
                (Text ("Unhandled validated request type: <class 'a2a.types."
                       ++ class_name (request_class (root a2a_request)) ++ "'>"))])%list)
    /\ error_code content = Some (VInt UnsupportedOperationError_code)
    /\ error_message content =
       Some (VStr ("Request type " ++ class_name (request_class (root a2a_request))
                   ++ " is unknown."))
    /\ dict_get "id" content = id_entry request_id.
Proof.
  unfold is_streaming_request, _process_non_streaming_request.
  destruct (request_class (root a2a_request)) eqn:Hclass; try discriminate;
    intros _; (eexists; split; [reflexivity |]);
    match goal with
    | |- error_code (error_body ?r) = _ /\ _ =>
        pose proof (error_body_keys r) as (Hcode & Hmsg & _ & _ & Hid)
    end;
    repeat split; assumption.
Qed.

Lemma process_non_streaming_request_fallback_witness :
  exists content evs',
    _process_non_streaming_request (H := Examples.a2a_types) Examples.simple_app
      (Some (IdInt 2)) MoreExamples.stream_object MoreExamples.anonymous_context [] =
    (Return (JSONResponse content 200), evs')
    /\ error_message content =
       Some (VStr "Request type SendStreamingMessageRequest is unknown.").
Proof.
  destruct (@process_non_streaming_request_fallback Examples.a2a_types
              Examples.simple_app (Some (IdInt 2)) MoreExamples.stream_object
              MoreExamples.anonymous_context [] eq_refl)
    as (content & Hrun & _ & Hmsg & _).
  exists content. eexists. split; [exact Hrun | exact Hmsg].
Defined.

(** X11.  Called on a request of one of the seven unary classes,
    [_process_streaming_request] calls no handler method and raises: its
    [handler_result] is still [None] when [_create_response] reads the
    attribute [root] of it.  It logs nothing. *)
Theorem process_streaming_request_on_unary_class_raises
    (self : JSONRPCApplication) (request_id : option RequestId)
    (a2a_request : A2ARequest) (context : ServerCallContext) (evs : list Event) :
  is_streaming_request (root a2a_request) = false ->
  _process_streaming_request self request_id a2a_request context evs =
  (Raise (AttributeError "'NoneType' object has no attribute 'root'"), evs).
Proof.
  unfold is_streaming_request, _process_streaming_request.
  destruct (request_class (root a2a_request)); try discriminate; reflexivity.
Qed.

Lemma process_streaming_request_on_unary_class_raises_witness :
  _process_streaming_request Examples.simple_app
    (Some (IdInt 1)) MoreExamples.get_task_object MoreExamples.anonymous_context [] =
  (Raise (AttributeError "'NoneType' object has no attribute 'root'"), []).
Proof.
  exact (@process_streaming_request_on_unary_class_raises
           Examples.simple_app (Some (IdInt 1)) MoreExamples.get_task_object
           MoreExamples.anonymous_context [] eq_refl).
Defined.

(** ** Ids on the success path, and the default builder in the pipeline *)

Lemma unary_body_id (u : UnaryResult) :
  dict_get "id" (unary_body u) = id_entry (unary_result_id u).
Proof.
  destruct u as [e | [e | s]]; cbn [unary_body unary_result_id ResponseRoot_model].
  - apply error_body_id.
  - apply (error_body_id e).
  - apply success_body_keys.
Qed.

(** X12.  On the success path the pipeline does not touch the id: the
    body of a unary response carries the id the handler put in its result,
    whatever the id of the request, and has no [id] entry when the handler's
    result has none. *)
Theorem unary_response_keeps_handler_id `{Declarations}
    (self : JSONRPCApplication) (request : Request) (body : Value)
    (a2a_request : A2ARequest) (context : ServerCallContext) (evs : list Event)
    (m : RequestObject -> ServerCallContext -> Outcome UnaryResult)
    (u : UnaryResult) :
  json request = Return body ->
  A2ARequest_model_validate body = Return a2a_request ->
  build (_context_builder self) request = Return context ->
  routing_table (handler self) (request_class (root a2a_request)) = Unary m ->
  m (root a2a_request) context = Return u ->
  exists content,
    _handle_requests self request evs = (Return (JSONResponse content 200), evs)
    /\ content = unary_body u
    /\ dict_get "id" content = id_entry (unary_result_id u).
Proof.
  intros Hjson Hval Hbuild Hroute Hcall.
  rewrite handle_requests_unfold,
    (try_body_routed self request evs Hjson Hval Hbuild).
  unfold routed_outcome. rewrite Hroute, Hcall.
  eexists. split; [reflexivity |]. split; [reflexivity | apply unary_body_id].
Qed.

Lemma unary_response_keeps_handler_id_witness :
  exists content,
    _handle_requests (H := Examples.a2a_types) MoreExamples.renumbering_app
      Examples.get_task_request [] = (Return (JSONResponse content 200), [])
    /\ id (root MoreExamples.get_task_object) = Some (IdInt 1)
    /\ dict_get "id" content = Some (VStr "other").
Proof.
  destruct (@unary_response_keeps_handler_id Examples.a2a_types
              MoreExamples.renumbering_app Examples.get_task_request _
              MoreExamples.get_task_object _ [] _ _
              eq_refl eq_refl eq_refl eq_refl eq_refl)
    as (content & Hrun & _ & Hid).
  exists content. split; [exact Hrun |]. split; [reflexivity | exact Hid].
Defined.

(** X13.  An application constructed without a context builder uses the
    default one, so context building cannot fail a request: a decoded
    request of a streaming class whose handler method returns its generator
    is always answered with the event stream of that generator, and nothing
    is logged. *)
Theorem default_builder_streaming_response `{Declarations}
    (jsonrpc_handler : JSONRPCHandler) (request : Request) (body : Value)
    (a2a_request : A2ARequest) (evs : list Event)
    (m : RequestObject -> ServerCallContext -> Outcome (AsyncGenerator ResponseRoot)) :
  json request = Return body ->
  A2ARequest_model_validate body = Return a2a_request ->
  routing_table jsonrpc_handler (request_class (root a2a_request)) = Streaming m ->
  (forall context, exists stream, m (root a2a_request) context = Return stream) ->
  exists context stream,
    build DefaultCallContextBuilder request = Return context
    /\ m (root a2a_request) context = Return stream
    /\ _handle_requests (JSONRPCApplication_init jsonrpc_handler None) request evs =
       (Return (EventSourceResponse (event_generator stream)), evs).
Proof.
  intros Hjson Hval Hroute Hcall.
  destruct (DefaultCallContextBuilder_build_returns request) as (context & Hbuild & _).
  destruct (Hcall context) as (stream & Hstream).
  exists context, stream. split; [exact Hbuild |]. split; [exact Hstream |].
  rewrite handle_requests_unfold.
  rewrite (try_body_routed (JSONRPCApplication_init jsonrpc_handler None)
             request evs Hjson Hval Hbuild).
  unfold routed_outcome. cbn [handler JSONRPCApplication_init].
  rewrite Hroute, Hstream. reflexivity.
Qed.

Lemma default_builder_streaming_response_witness :
  exists stream,
    _handle_requests (H := Examples.a2a_types)
      (JSONRPCApplication_init Examples.simple_handler None)
      Examples.stream_request [] =
    (Return (EventSourceResponse (event_generator stream)), [])
    /\ List.length (items stream) = 3%nat.
Proof.
  destruct (@default_builder_streaming_response Examples.a2a_types
              Examples.simple_handler Examples.stream_request _
              MoreExamples.stream_object [] _ eq_refl eq_refl eq_refl
              (fun context => ex_intro _ _ eq_refl))
    as (context & stream & _ & Hstream & Hrun).
  exists stream. split; [exact Hrun |].
  cbn in Hstream. injection Hstream as <-. reflexivity.
Defined.

(** ** The agent card endpoints *)

(** X14.  The public card endpoint always answers with status 200 and
    logs nothing; its body holds every field of the card whose value is not
    [None], dumped, and no entry for a field whose value is [None]. *)
Theorem agent_card_endpoint_body
    (self : Cards) (request : Request) (evs : list Event) :
  exists content,
    _handle_get_agent_card self request evs = (Return (JSONResponse content 200), evs)
    /\ (forall k x,
           lookup k (agent_card self) = Some x -> x <> VNone ->
           dict_get k content = Some (model_dump true x))
    /\ (forall k y,
           dict_get k content = Some y ->
           exists x, In (k, x) (agent_card self) /\ x <> VNone
                     /\ y = model_dump true x).
Proof.
  exists (AgentCard_model_dump (agent_card self)).
  split; [reflexivity |].
  unfold AgentCard_model_dump. rewrite model_dump_model. cbn [dict_get].
  split.
  - intros k x. apply lookup_dump_fields_some.
  - intros k y. apply lookup_dump_fields_inv.
Qed.

(** X15.  The extended card endpoint answers 200 or 404 and logs nothing.
    It answers 200 exactly when the public card's
    [supportsAuthenticatedExtendedCard] is truthy and an extended card was
    provided, and the body is then the dump of the extended card; it never
    falls back to the public card.  A 404 body is a single [error] entry. *)
Theorem extended_card_endpoint_decision
    (self : Cards) (request : Request) (evs : list Event) :
  exists content status,
    _handle_get_authenticated_extended_agent_card self request evs =
    (Return (JSONResponse content status), evs)
    /\ (status = 200 \/ status = 404)
    /\ (status = 200 <->
        truthy (supportsAuthenticatedExtendedCard (agent_card self)) = true
        /\ extended_agent_card self <> None)
    /\ (status = 200 ->
        exists card, extended_agent_card self = Some card
                     /\ content = AgentCard_model_dump card)
    /\ (status = 404 -> exists msg, content = VDict [("error", VStr msg)]).
Proof.
  unfold _handle_get_authenticated_extended_agent_card.
  destruct (truthy (supportsAuthenticatedExtendedCard (agent_card self)));
    cbn [negb]; [destruct (extended_agent_card self) as [card |] |];
    eexists; eexists; (split; [reflexivity |]);
    unfold JSONResponse_default_status_code, HTTP_404_NOT_FOUND.
  - split; [left; reflexivity |].
    split; [split; [intros _; split; [reflexivity | discriminate] | reflexivity] |].
    split; [intros _; exists card; split; reflexivity | discriminate].
  - split; [right; reflexivity |].
    split; [split; [discriminate | intros [_ Hne]; contradiction] |].
    split; [discriminate | intros _; eexists; reflexivity].
  - split; [right; reflexivity |].
    split; [split; [discriminate | intros [Hs _]; discriminate] |].
    split; [discriminate | intros _; eexists; reflexivity].
Qed.

(** X16.  The check of the constructor and the extended card endpoint
    agree: the constructor logs its ERROR record exactly when the endpoint
    will answer 404 with the message that the extended card is supported but
    not configured; in every other case it logs nothing. *)
Theorem init_check_predicts_unconfigured_endpoint
    (self : Cards) (request : Request) (evs0 evs : list Event) :
  (snd (init_check self evs0) =
     (evs0 ++ [Log ERROR
                 (Text "AgentCard.supportsAuthenticatedExtendedCard is True, but no extended_agent_card was provided. The /agent/authenticatedExtendedCard endpoint will return 404.")])%list
   <->
   fst (_handle_get_authenticated_extended_agent_card self request evs) =
     Return (JSONResponse
               (VDict [("error",
                        VStr "Authenticated extended agent card is supported but not configured on the server.")])
               404))
  /\ fst (init_check self evs0) = Return tt
  /\ (snd (init_check self evs0) = evs0
      \/ snd (init_check self evs0) =
         (evs0 ++ [Log ERROR
                     (Text "AgentCard.supportsAuthenticatedExtendedCard is True, but no extended_agent_card was provided. The /agent/authenticatedExtendedCard endpoint will return 404.")])%list).
Proof.
  assert (Hne : forall x : Event, evs0 <> (evs0 ++ [x])%list).
  { intros x Heq. apply (f_equal (@List.length Event)) in Heq.
    rewrite List.length_app in Heq. cbn in Heq. lia. }
  unfold init_check, _handle_get_authenticated_extended_agent_card.
  destruct (truthy (supportsAuthenticatedExtendedCard (agent_card self)));
    cbn [negb andb]; [destruct (extended_agent_card self) as [card |] |];
    cbn [fst snd ret logger_error logger_log emit].
  - split; [| split; [reflexivity | left; reflexivity]].
    split; [intros Heq; exfalso; exact (Hne _ Heq) |].
    unfold JSONResponse_default_status_code. intros Heq. discriminate Heq.
  - split; [split; reflexivity |].
    split; [reflexivity | right; reflexivity].
  - split; [| split; [reflexivity | left; reflexivity]].
    split; [intros Heq; exfalso; exact (Hne _ Heq) |].
    intros Heq. discriminate Heq.
Qed.

(** ** Failures inside a stream *)

(** X17.  The error boundary ends where the response is returned: when
    the generator a streaming handler method returned fails after some
    items, [_handle_requests] has already answered with the event stream and
    logged nothing.  The stream then delivers the events of the items
    produced so far and ends with the handler's exception; no error frame is
    added and no JSON-RPC error response is made of it. *)
Theorem stream_failure_is_not_translated `{Declarations}
    (self : JSONRPCApplication) (request : Request) (body : Value)
    (a2a_request : A2ARequest) (context : ServerCallContext) (evs : list Event)
    (m : RequestObject -> ServerCallContext -> Outcome (AsyncGenerator ResponseRoot))
    (produced : list ResponseRoot) (e : Exc) :
  json request = Return body ->
  A2ARequest_model_validate body = Return a2a_request ->
  build (_context_builder self) request = Return context ->
  routing_table (handler self) (request_class (root a2a_request)) = Streaming m ->
  m (root a2a_request) context = Return (generator_of produced (Some e)) ->
  exists events,
    _handle_requests self request evs = (Return (EventSourceResponse events), evs)
    /\ events = generator_of (map event_of produced) (Some e)
    /\ items events = map event_of produced
    /\ ending events = Some e.
Proof.
  intros Hjson Hval Hbuild Hroute Hcall.
  rewrite handle_requests_unfold,
    (try_body_routed self request evs Hjson Hval Hbuild).
  unfold routed_outcome. rewrite Hroute, Hcall.
  eexists. split; [reflexivity |].
  rewrite event_generator_generator_of. split; [reflexivity |].
  split; [apply items_generator_of |].
  clear. induction produced as [| x rest IH]; simpl; [reflexivity | exact IH].
Qed.

Lemma stream_failure_is_not_translated_witness :
  exists events,
    _handle_requests (H := Examples.a2a_types) MoreExamples.breaking_app
      Examples.stream_request [] = (Return (EventSourceResponse events), [])
    /\ List.length (items events) = 1%nat
    /\ ending events = Some (OtherException "RuntimeError" "agent crashed").
Proof.
  destruct (@stream_failure_is_not_translated Examples.a2a_types
              MoreExamples.breaking_app Examples.stream_request _
              MoreExamples.stream_object _ [] _
              [MoreExamples.first_item (root MoreExamples.stream_object)]
              (OtherException "RuntimeError" "agent crashed")
              eq_refl eq_refl eq_refl eq_refl eq_refl)
    as (events & Hrun & _ & Hitems & Hend).
  exists events. split; [exact Hrun |]. split; [| exact Hend].
  rewrite Hitems. reflexivity.
Defined.

(** ** The error boundary and what goes past it *)

Import Interrupts.



